(** * Alpha.py: interactive Geant4 installer — shallow embedding and properties

    The program is a linear script of console prompts, file-system
    operations and external commands.  The embedding has three layers:

    - [PyStr]: the Python string and integer primitives the script calls
      ([str.strip], [str.lower], [in], [str.split], [int], [re.findall] for
      the one pattern used, [sorted] with a key, [os.path.join]);
    - [Sys]: a state-and-exception monad over a world made of a file
      system, a console and an oracle for external commands;
    - [Alpha]: the functions of [Alpha.py], one definition per function.

    Strings are sequences of code points below 256; integers are unbounded
    ([Z]), as Python's are. *)

From Stdlib Require Import String Ascii ZArith List Lia Bool Sorted Permutation.
From stdpp Require Import gmap strings.
Import ListNotations.

Local Open Scope string_scope.
Local Open Scope Z_scope.

(** ** Python string primitives *)

Module PyStr.

Definition code (c : ascii) : N := N_of_ascii c.

Definition dquote : ascii := "034"%char.
Definition newline : ascii := "010"%char.

(** [str.isdigit] restricted to code points below 256, which is also the
    class [\d] of [re] there: the ten ASCII digits. *)
Definition is_digit (c : ascii) : bool :=
  ((48 <=? code c) && (code c <=? 57))%N.

(** Characters removed by [str.strip()] (code points below 256). *)
Definition is_space (c : ascii) : bool :=
  (((9 <=? code c) && (code c <=? 13)) || ((28 <=? code c) && (code c <=? 32))
   || (code c =? 133) || (code c =? 160))%N.

Definition lower_char (c : ascii) : ascii :=
  if (((65 <=? code c) && (code c <=? 90))
      || ((192 <=? code c) && (code c <=? 222) && negb (code c =? 215)))%N
  then ascii_of_N (code c + 32) else c.

(** [s.lower()] *)
Fixpoint lower (s : string) : string :=
  match s with
  | EmptyString => EmptyString
  | String c r => String (lower_char c) (lower r)
  end.

Fixpoint lstrip_by (p : ascii -> bool) (s : string) : string :=
  match s with
  | EmptyString => EmptyString
  | String c r => if p c then lstrip_by p r else s
  end.

Fixpoint rstrip_by (p : ascii -> bool) (s : string) : string :=
  match s with
  | EmptyString => EmptyString
  | String c r =>
      match rstrip_by p r with
      | EmptyString => if p c then EmptyString else String c EmptyString
      | r' => String c r'
      end
  end.

Definition strip_by (p : ascii -> bool) (s : string) : string :=
  rstrip_by p (lstrip_by p s).

(** [s.strip()] *)
Definition strip (s : string) : string := strip_by is_space s.

(** [s.strip(q)] where [q] is the one-character string made of a double
    quote. *)
Definition strip_quotes (s : string) : string :=
  strip_by (Ascii.eqb dquote) s.

(** [s.startswith(p)] *)
Definition startswith (p s : string) : bool := String.prefix p s.

(** [sub in s] *)
Fixpoint contains (sub s : string) : bool :=
  String.prefix sub s ||
  match s with
  | EmptyString => false
  | String _ r => contains sub r
  end.

(** [s.split(sep)] for a one-character separator. *)
Fixpoint split (sep : ascii) (s : string) : list string :=
  match s with
  | EmptyString => [EmptyString]
  | String c r =>
      if Ascii.eqb c sep then EmptyString :: split sep r
      else match split sep r with
           | [] => [String c EmptyString]
           | h :: t => String c h :: t
           end
  end.

Definition digit_val (c : ascii) : Z := Z.of_N (code c) - 48.

(** Digits with single underscores between them, as [int] accepts. *)
Fixpoint parse_dec (acc : Z) (prev_digit : bool) (s : string) : option Z :=
  match s with
  | EmptyString => if prev_digit then Some acc else None
  | String c r =>
      if is_digit c then parse_dec (10 * acc + digit_val c) true r
      else if Ascii.eqb c "_" && prev_digit then parse_dec acc false r
      else None
  end.

(** [int(s)]: [None] stands for [ValueError]. *)
Definition int (s : string) : option Z :=
  let t := strip s in
  match t with
  | String c r =>
      if Ascii.eqb c "+" then parse_dec 0 false r
      else if Ascii.eqb c "-" then option_map Z.opp (parse_dec 0 false r)
      else parse_dec 0 false t
  | EmptyString => None
  end.

(** [str(n)] for an integer. *)
Definition digit_char (d : Z) : ascii := ascii_of_N (Z.to_N (48 + d)).

Fixpoint str_pos_aux (fuel : nat) (n : Z) (acc : string) : string :=
  match fuel with
  | O => acc
  | S f =>
      let acc' := String (digit_char (n mod 10)) acc in
      if n <? 10 then acc' else str_pos_aux f (n / 10) acc'
  end.

Definition str_of_Z (n : Z) : string :=
  if n <? 0 then String "-" (str_pos_aux (Z.to_nat (Z.log2 (- n)) + 1) (- n) EmptyString)
  else str_pos_aux (Z.to_nat (Z.log2 n) + 1) n EmptyString.

(** [os.path.join(a, b)] on POSIX. *)
Fixpoint ends_with_slash (s : string) : bool :=
  match s with
  | EmptyString => false
  | String c EmptyString => Ascii.eqb c "/"
  | String _ r => ends_with_slash r
  end.

Definition path_join (a b : string) : string :=
  if startswith "/" b then b
  else if (a =? "")%string || ends_with_slash a then a ++ b
  else a ++ "/" ++ b.

(** [os.path.dirname(p)] on POSIX: the part of [p] up to its last slash,
    without trailing slashes unless it consists of slashes only. *)
Fixpoint upto_last_slash (s : string) : string :=
  match s with
  | EmptyString => EmptyString
  | String c r =>
      if contains "/" r then String c (upto_last_slash r)
      else if Ascii.eqb c "/" then String c EmptyString else EmptyString
  end.

Definition dirname (p : string) : string :=
  let head := upto_last_slash p in
  match lstrip_by (Ascii.eqb "/") head with
  | EmptyString => head
  | _ => rstrip_by (Ascii.eqb "/") head
  end.

(** Text-mode reading: [\r\n] and [\r] become [\n]; iterating over the
    file yields the lines with their terminator. *)
Definition cr : ascii := "013"%char.

Fixpoint universal_newlines (s : string) : string :=
  match s with
  | EmptyString => EmptyString
  | String c r =>
      if Ascii.eqb c cr then
        match r with
        | String d r' =>
            if Ascii.eqb d newline then String newline (universal_newlines r')
            else String newline (universal_newlines r)
        | EmptyString => String newline EmptyString
        end
      else String c (universal_newlines r)
  end.

Fixpoint lines_keepends (s : string) : list string :=
  match s with
  | EmptyString => []
  | String c r =>
      if Ascii.eqb c newline then String c EmptyString :: lines_keepends r
      else match lines_keepends r with
           | [] => [String c EmptyString]
           | h :: t => String c h :: t
           end
  end.

(** *** [sorted(xs, key=..., reverse=True)] *)

(** Python's order on lists of integers: lexicographic, a proper prefix
    being smaller. *)
Fixpoint key_lt (a b : list Z) : bool :=
  match a, b with
  | [], [] => false
  | [], _ :: _ => true
  | _ :: _, [] => false
  | x :: a', y :: b' =>
      if x <? y then true else if y <? x then false else key_lt a' b'
  end.

Section Sorted.
Context {A : Type}.

(** The keys are computed once per element, before any comparison. *)
Fixpoint decorate (key : A -> option (list Z)) (l : list A)
  : option (list (list Z * A)) :=
  match l with
  | [] => Some []
  | x :: r =>
      match key x, decorate key r with
      | Some k, Some r' => Some ((k, x) :: r')
      | _, _ => None
      end
  end.

(** The sort is stable, also with [reverse=True]: elements whose keys
    compare equal keep the order they had in the input. *)
Fixpoint insert_desc (x : list Z * A) (l : list (list Z * A))
  : list (list Z * A) :=
  match l with
  | [] => [x]
  | y :: r => if key_lt (fst x) (fst y) then y :: insert_desc x r
              else x :: l
  end.

Definition sort_desc (l : list (list Z * A)) : list (list Z * A) :=
  fold_right insert_desc [] l.

(** [None] when computing a key raises. *)
Definition sorted_desc (key : A -> option (list Z)) (l : list A)
  : option (list A) :=
  option_map (fun d => map snd (sort_desc d)) (decorate key l).
End Sorted.

(** *** [re.findall(r'v(\d+\.\d+(?:\.\d+)?)', text)] *)

(** Longest prefix of digits and what follows it. *)
Fixpoint span_digits (s : string) : string * string :=
  match s with
  | EmptyString => (EmptyString, EmptyString)
  | String c r =>
      if is_digit c then let (d, t) := span_digits r in (String c d, t)
      else (EmptyString, s)
  end.

(** What follows the character [c] at the start of [s], if [s] starts
    with it. *)
Definition expect (c : ascii) (s : string) : option string :=
  match s with
  | String c' r => if Ascii.eqb c' c then Some r else None
  | EmptyString => None
  end.

(** A match of the pattern anchored at the start of [s]: the text of
    group 1 and the length of the whole match.  Each [\d+] is greedy and
    is followed by a character that is not a digit (or by nothing), so
    only the longest run of digits can match; the optional group is taken
    whenever it can be. *)
Definition match_at (s : string) : option (string * nat) :=
  match expect "v" s with
  | None => None
  | Some r =>
      let (d1, r1) := span_digits r in
      match d1, expect "." r1 with
      | String _ _, Some r2 =>
          let (d2, r3) := span_digits r2 in
          match d2 with
          | EmptyString => None
          | String _ _ =>
              let short := (d1 ++ "." ++ d2)%string in
              match expect "." r3 with
              | Some r4 =>
                  let (d3, _) := span_digits r4 in
                  match d3 with
                  | EmptyString => Some (short, S (String.length short))
                  | String _ _ =>
                      let long := (short ++ "." ++ d3)%string in
                      Some (long, S (String.length long))
                  end
              | None => Some (short, S (String.length short))
              end
          end
      | _, _ => None
      end
  end.

(** Leftmost, non-overlapping matches, scanning left to right; [skip] is
    the number of characters still covered by the previous match. *)
Fixpoint findall_from (skip : nat) (s : string) : list string :=
  match s with
  | EmptyString => []
  | String _ r =>
      match skip with
      | S k => findall_from k r
      | O =>
          match match_at s with
          | Some (g, len) => g :: findall_from (Nat.pred len) r
          | None => findall_from O r
          end
      end
  end.

Definition findall (text : string) : list string := findall_from O text.

End PyStr.

(** ** The world the script runs in *)

Module Sys.

(** Python exceptions the script can meet. *)
Inductive exn :=
| EOFError | ValueError | IndexError | AttributeError
| FileExistsError | FileNotFoundError | NotADirectoryError
| IsADirectoryError | PermissionError | OSError | RequestException.

(** How a computation ends: it returns, it calls [sys.exit(code)], or an
    exception leaves it. *)
Inductive outcome (A : Type) :=
| Ret (a : A)
| Exit (code : Z)
| Raise (e : exn).
Arguments Ret {A} a.
Arguments Exit {A} code.
Arguments Raise {A} e.

(** Exit status of the interpreter: an uncaught exception prints a
    traceback and gives status 1. *)
Definition exit_code {A} (o : outcome A) : Z :=
  match o with
  | Ret _ => 0
  | Exit c => c
  | Raise _ => 1
  end.

(** File-system nodes, keyed by absolute path.  A directory carries what
    [os.listdir] returns for it. *)
Inductive node :=
| File (writable : bool) (content : string)
| Dir (entries : list string).

(** Result of [subprocess.run([...])] before [check=True] is applied. *)
Inductive proc_result :=
| Completed (status : Z) (stdout : string)
| NotStarted.

(** What the process does to the outside, in the order it happens. *)
Inductive event :=
| EvPrint (text : string)
| EvInput (prompt : string) (answer : option string)
| EvShell (cmd : string) (status : Z)
| EvLsbRelease (r : proc_result)
| EvHttpGet (url : string) (response : option string).

Section World.
Context {X : Type}.

Record world := World {
  fs : gmap string node;
  cwd : string;
  stdin : list string;
  trace : list event;
  ext : X
}.

(** The host: constants of the platform and the behaviour of everything
    the script calls but does not contain. *)
Record machine := Machine {
  os_name : string;
  platform_system : string;
  platform_release : string;
  script_file : string;
  home_dir : string;
  lsb_release : world -> proc_result;
  http_get : string -> world -> option string;
  shell : string -> world -> Z * world;
  mktemp : world -> option string;
  set_order : list string -> list string;
  set_order_enum :
    forall l, NoDup (set_order l) /\ forall x, x ∈ set_order l <-> x ∈ l
}.

Definition M (A : Type) : Type := world -> outcome A * world.

Definition ret {A} (a : A) : M A := fun w => (Ret a, w).

Definition bind {A B} (m : M A) (f : A -> M B) : M B :=
  fun w =>
    match m w with
    | (Ret a, w') => f a w'
    | (Exit c, w') => (Exit c, w')
    | (Raise e, w') => (Raise e, w')
    end.

Definition raise {A} (e : exn) : M A := fun w => (Raise e, w).

(** [sys.exit(code)] *)
Definition exit {A} (code : Z) : M A := fun w => (Exit code, w).

Definition log (e : event) (w : world) : world :=
  World (fs w) (cwd w) (stdin w) (trace w ++ [e]) (ext w).

(** [print(text)] *)
Definition print (text : string) : M unit :=
  fun w => (Ret tt, log (EvPrint text) w).

Definition take_line (rest : list string) (w : world) : world :=
  World (fs w) (cwd w) rest (trace w) (ext w).

(** [input(prompt)]: the next line of standard input without its line
    terminator; [EOFError] at end of input. *)
Definition input (prompt : string) : M string :=
  fun w =>
    match stdin w with
    | [] => (Raise EOFError, log (EvInput prompt None) w)
    | l :: rest => (Ret l, log (EvInput prompt (Some l)) (take_line rest w))
    end.

(** [while True: s = input(prompt); body], where [body] returns [Some a]
    for [return a] and [None] for the next round.  The recursion follows
    the lines still to be read: the bodies used here read none
    themselves. *)
Fixpoint input_loop {A} (prompt : string) (body : string -> M (option A))
    (lines : list string) (w : world) : outcome A * world :=
  match lines with
  | [] => (Raise EOFError, log (EvInput prompt None) w)
  | l :: rest =>
      match body l (log (EvInput prompt (Some l)) (take_line rest w)) with
      | (Ret (Some a), w') => (Ret a, w')
      | (Ret None, w') => input_loop prompt body rest w'
      | (Exit c, w') => (Exit c, w')
      | (Raise e, w') => (Raise e, w')
      end
  end.

Definition while_input {A} (prompt : string) (body : string -> M (option A))
  : M A :=
  fun w => input_loop prompt body (stdin w) w.

(** A relative path is taken from the current directory. *)
Definition resolve (w : world) (p : string) : string :=
  PyStr.path_join (cwd w) p.

(** [os.path.exists(p)] *)
Definition path_exists (p : string) : M bool :=
  fun w => (Ret (bool_decide (is_Some (fs w !! resolve w p))), w).

(** [os.listdir(p)] *)
Definition listdir (p : string) : M (list string) :=
  fun w =>
    match fs w !! resolve w p with
    | Some (Dir es) => (Ret es, w)
    | Some (File _ _) => (Raise NotADirectoryError, w)
    | None => (Raise FileNotFoundError, w)
    end.

Definition set_fs (f : gmap string node) (w : world) : world :=
  World f (cwd w) (stdin w) (trace w) (ext w).

(** [os.makedirs(p, exist_ok=...)] *)
Definition makedirs (p : string) (exist_ok : bool) : M unit :=
  fun w =>
    match fs w !! resolve w p with
    | None => (Ret tt, set_fs (<[resolve w p := Dir []]> (fs w)) w)
    | Some (Dir _) =>
        if exist_ok then (Ret tt, w) else (Raise FileExistsError, w)
    | Some (File _ _) => (Raise FileExistsError, w)
    end.

(** [os.chdir(p)] *)
Definition chdir (p : string) : M unit :=
  fun w =>
    match fs w !! resolve w p with
    | Some (Dir _) =>
        (Ret tt, World (fs w) (resolve w p) (stdin w) (trace w) (ext w))
    | Some (File _ _) => (Raise NotADirectoryError, w)
    | None => (Raise FileNotFoundError, w)
    end.

(** [with open(p, "a") as f: f.write(text)] *)
Definition append_file (p text : string) : M unit :=
  fun w =>
    match fs w !! resolve w p with
    | Some (File true c) =>
        (Ret tt, set_fs (<[resolve w p := File true (c ++ text)]> (fs w)) w)
    | Some (File false _) => (Raise PermissionError, w)
    | Some (Dir _) => (Raise IsADirectoryError, w)
    | None => (Ret tt, set_fs (<[resolve w p := File true text]> (fs w)) w)
    end.

(** [with open(p) as f: for line in f: ...] reads these lines; [None]
    when the file cannot be opened. *)
Definition read_lines (p : string) (w : world) : option (list string) :=
  match fs w !! resolve w p with
  | Some (File _ c) => Some (PyStr.lines_keepends (PyStr.universal_newlines c))
  | _ => None
  end.

Section Host.
Variable m : machine.

(** [subprocess.run(cmd, shell=True)]: the command may change the file
    system, read from the terminal and change the outside; it cannot
    change the directory of the script or what the script has done. *)
Definition run_shell (cmd : string) : M Z :=
  fun w =>
    let (st, w') := shell m cmd w in
    (Ret st,
     World (fs w') (cwd w) (stdin w') (trace w ++ [EvShell cmd st]) (ext w')).

(** [tempfile.NamedTemporaryFile("w", delete=False, suffix=".txt")],
    written and closed; returns the name of the file. *)
Definition write_temp (text : string) : M string :=
  fun w =>
    match mktemp m w with
    | Some p => (Ret p, set_fs (<[p := File true text]> (fs w)) w)
    | None => (Raise OSError, w)
    end.

(** [requests.get(url).text] *)
Definition get_text (url : string) : M string :=
  fun w =>
    match http_get m url w with
    | Some t => (Ret t, log (EvHttpGet url (Some t)) w)
    | None => (Raise RequestException, log (EvHttpGet url None) w)
    end.
End Host.
End World.

Arguments world : clear implicits.
Arguments machine : clear implicits.
Arguments M : clear implicits.

Declare Scope sys_scope.
Delimit Scope sys_scope with sys.
Notation "x <- c1 ;; c2" := (bind c1 (fun x => c2))
  (at level 100, c1 at next level, right associativity) : sys_scope.
Notation "c1 ;; c2" := (bind c1 (fun _ => c2))
  (at level 100, right associativity) : sys_scope.

End Sys.

(** ** The script *)

Module Alpha.
Import Sys.
Local Open Scope sys_scope.

Definition nl : string := String PyStr.newline EmptyString.
Definition dq : string := String PyStr.dquote EmptyString.

(** The three values of [os_type]. *)
Inductive os_type := Windows | WSL | Linux.

Definition os_type_str (t : os_type) : string :=
  match t with
  | Windows => "Windows"
  | WSL => "WSL"
  | Linux => "Linux"
  end.

(** [f"{x}"] for a value that is a string or [None]. *)
Definition fmt (x : option string) : string :=
  match x with
  | Some s => s
  | None => "None"
  end.

(** [str(e)] for the [CalledProcessError] of a command that returned
    [status] (a shell killed by a signal is reported in other words). *)
Definition called_process_error_str (cmd : string) (status : Z) : string :=
  "Command '" ++ cmd ++ "' returned non-zero exit status "
    ++ PyStr.str_of_Z status ++ ".".

Definition pacman_cmd : string :=
  "sudo pacman -Sy --noconfirm cmake gcc binutils glew libjpeg-turbo libpng libtiff giflib libxml2 openssl fftw qt5-base qt5-tools mesa glu libxmu".
Definition apt_cmd : string :=
  "sudo apt update && sudo apt install -y cmake cmake-curses-gui g++ gcc binutils libx11-dev libxpm-dev libxft-dev libxext-dev libglew-dev libjpeg-dev libpng-dev libtiff-dev libgif-dev libxml2-dev libssl-dev libfftw3-dev qtbase5-dev qtchooser qttools5-dev-tools libgl1-mesa-dev libglu1-mesa-dev libxmu-dev".
Definition zypper_cmd : string :=
  "sudo zypper install -y cmake gcc gcc-c++ libX11-devel libXpm-devel libXft-devel libXext-devel glew-devel libjpeg-devel libpng-devel libtiff-devel giflib-devel libxml2-devel libopenssl-devel fftw3-devel libqt5-qtbase-devel Mesa-libGL-devel Mesa-libGLU-devel libXmu-devel".
Definition dnf_rhel_cmd : string :=
  "sudo dnf install -y cmake gcc gcc-c++ binutils libX11-devel libXpm-devel libXft-devel libXext-devel glew-devel libjpeg-turbo-devel libpng-devel libtiff-devel giflib-devel libxml2-devel openssl-devel fftw-devel qt5-qtbase-devel qt5-qttools-devel mesa-libGL-devel mesa-libGLU-devel libXmu-devel".
Definition dnf5_fedora_cmd : string :=
  "sudo dnf5 install -y cmake gcc gcc-c++ binutils qt5-qtbase-devel qt5-qttools-devel mesa-libGL-devel mesa-libGLU-devel libXmu-devel".
Definition dnf_fedora_cmd : string :=
  "sudo dnf install -y cmake gcc gcc-c++ binutils qt5-qtbase-devel qt5-qttools-devel mesa-libGL-devel mesa-libGLU-devel libXmu-devel".

Definition tags_url : string := "https://gitlab.cern.ch/geant4/geant4/-/tags".

Definition cores_prompt : string :=
  "Enter the number of CPU cores for compilation: ".
Definition choice_prompt : string := "Choose a version to install (1-5): ".
Definition tarball_prompt : string :=
  "Do you want to [R]edownload, [S]kip, or [A]bort? (R/S/A): ".
Definition build_prompt : string := "[C]lear, [S]kip, or [A]bort? (C/S/A): ".
Definition invalid_input : string := "Invalid input. Try again.".
Definition unrecognized_warning : string :=
  "[WARNING] Distro not recognized. Please install dependencies manually.".

(** [key=lambda x: list(map(int, x.split(".")))] *)
Fixpoint map_int (parts : list string) : option (list Z) :=
  match parts with
  | [] => Some []
  | p :: r =>
      match PyStr.int p, map_int r with
      | Some n, Some ns => Some (n :: ns)
      | _, _ => None
      end
  end.

Definition version_key (x : string) : option (list Z) :=
  map_int (PyStr.split "." x).

(** [sorted(set(matches), key=..., reverse=True)], given the order in
    which the set hands out its elements. *)
Definition sorted_versions (elements : list string) : option (list string) :=
  PyStr.sorted_desc version_key elements.

(** The f-strings of [install_geant4]. *)
Definition tarball_name (version : string) : string :=
  "geant4-v" ++ version ++ ".tar.gz".
Definition tar_url (version : string) : string :=
  "https://gitlab.cern.ch/geant4/geant4/-/archive/v" ++ version ++ "/"
    ++ tarball_name version.
Definition src_dir_name (version : string) : string := "geant4-v" ++ version.
Definition build_dir_name (version : string) : string :=
  "geant4-v" ++ version ++ "-build".

(** [os.path.join(script_dir, "Geant4", f"geant4-v{version}-install")] *)
Definition install_path_of (script_dir version : string) : string :=
  PyStr.path_join (PyStr.path_join script_dir "Geant4")
    ("geant4-v" ++ version ++ "-install").

Definition alias_cmd (install_path : string) : string :=
  "alias geant4make=" ++ dq ++ "source " ++ install_path
    ++ "/share/Geant4/geant4make/geant4make.sh" ++ dq.

Definition instructions (install_path : string) : string :=
  "
[INSTRUCTIONS]
1. After CMake opens, you'll see: EMPTY CACHE
   - Press 'c' to configure
   - Press 'e' to exit the warning

2. Now edit the following settings (use arrow keys to navigate):
   - First, go to `CMAKE_INSTALL_PREFIX`, press Enter,
     then paste the following path using Shift+Ctrl+V:
       " ++ install_path ++ "
     Press Enter again. If it updates from /usr/local, it's set.

Turn ON (ideal settings):
   - GEANT4_INSTALL_DATA
   - GEANT4_USE_OPENGL_X11
   - GEANT4_USE_QT
   - GEANT4_USE_RAYTRACER_X11
   (You can enable more features if desired.)

4. Press 'c' again to configure. Repeat until 'g' is available.
5. Press 'g' to generate the Makefile.
6. After closing CMake, return to the terminal.
".

Section Program.
Context {X : Type} (m : machine X).

(** [run_command(command, description)] *)
Definition run_command (command description : string) : M X unit :=
  print (nl ++ "[INFO] " ++ description ++ "...");;
  status <- run_shell m command;;
  if status =? 0 then
    print ("[SUCCESS] " ++ description ++ " completed!" ++ nl)
  else
    print ("[ERROR] " ++ description ++ " failed: "
             ++ called_process_error_str command status ++ nl);;
    exit 1.

(** [get_script_directory()] *)
Definition get_script_directory : string := PyStr.dirname (script_file m).

(** [get_cpu_cores()] *)
Definition get_cpu_cores : M X Z :=
  while_input cores_prompt (fun s =>
    match PyStr.int (PyStr.strip s) with
    | Some cores =>
        if cores >? 0 then ret (Some cores)
        else print invalid_input;; ret None
    | None => print invalid_input;; ret None
    end).

(** The loop over the lines of [/etc/os-release]; falling off its end
    falls off the end of the function, which then returns [None].  An
    [IndexError] from [[1]] is caught by the inner [except]. *)
Fixpoint scan_os_release (lines : list string) : option string :=
  match lines with
  | [] => None
  | line :: rest =>
      if PyStr.startswith "PRETTY_NAME" line then
        match PyStr.split "=" (PyStr.strip line) with
        | _ :: v :: _ => Some (PyStr.strip_quotes v)
        | _ => Some "Unknown"
        end
      else scan_os_release rest
  end.

(** [get_linux_distro()]: the result is a string or [None]. *)
Definition get_linux_distro : M X (option string) :=
  fun w =>
    let r := lsb_release m w in
    let w1 := log (EvLsbRelease r) w in
    match r with
    | Completed 0 out =>
        (Ret (Some (PyStr.strip_quotes (PyStr.strip out))), w1)
    | _ =>
        match read_lines "/etc/os-release" w1 with
        | Some lines => (Ret (scan_os_release lines), w1)
        | None => (Ret (Some "Unknown"), w1)
        end
    end.

(** [detect_os()] *)
Definition detect_os : M X (os_type * option string) :=
  let os_info := platform_system m in
  let kernel_version := platform_release m in
  distro_info <- (if (os_info =? "Linux")%string then get_linux_distro
                  else ret (Some "N/A"));;
  let os_type :=
    if (os_name m =? "nt")%string then Windows
    else if PyStr.contains "microsoft" (PyStr.lower kernel_version) then WSL
    else Linux in
  print (nl ++ "[INFO] Detected Operating System:");;
  print ("    OS Type: " ++ os_type_str os_type);;
  print ("    Kernel Version: " ++ kernel_version);;
  print ("    Distro Info: " ++ fmt distro_info ++ nl);;
  ret (os_type, distro_info).

(** [for i, ver in enumerate(...): print(f"  [{i+1}] v{ver}")] *)
Fixpoint print_menu (i : Z) (vers : list string) : M X unit :=
  match vers with
  | [] => ret tt
  | ver :: rest =>
      print ("  [" ++ PyStr.str_of_Z (i + 1) ++ "] v" ++ ver);;
      print_menu (i + 1) rest
  end.

(** [get_latest_geant4_version()] *)
Definition get_latest_geant4_version : M X string :=
  text <- get_text m tags_url;;
  let matches := PyStr.findall text in
  match sorted_versions (set_order m matches) with
  | None => raise ValueError
  | Some versions =>
      match versions with
      | [] => print "[ERROR] Could not detect Geant4 versions.";; exit 1
      | _ :: _ =>
          print "Available Geant4 versions:";;
          print_menu 0 (firstn 5 versions);;
          while_input choice_prompt (fun s =>
            match PyStr.int s with
            | Some choice =>
                if (1 <=? choice) && (choice <=? 5) then
                  match nth_error versions (Z.to_nat (choice - 1)) with
                  | Some v => ret (Some v)
                  | None => raise IndexError
                  end
                else print invalid_input;; ret None
            | None => print invalid_input;; ret None
            end)
      end
  end.

(** The [if]/[elif] chain of [install_packages]: the command, or [None]
    in the [else] branch. *)
Definition select_pkg_cmd (distro : string) : option string :=
  if PyStr.contains "arch" (PyStr.lower distro) then Some pacman_cmd
  else if existsb (fun name => PyStr.contains name (PyStr.lower distro))
                  ["ubuntu"; "debian"; "mint"] then Some apt_cmd
  else if PyStr.contains "opensuse" (PyStr.lower distro) then Some zypper_cmd
  else if PyStr.contains "rocky" (PyStr.lower distro)
          || PyStr.contains "rhel" (PyStr.lower distro) then Some dnf_rhel_cmd
  else if PyStr.contains "fedora" (PyStr.lower distro) then
    if PyStr.startswith "41" (platform_release m) then Some dnf5_fedora_cmd
    else Some dnf_fedora_cmd
  else None.

(** [install_packages(distro)]; [distro] is what [detect_os] returned. *)
Definition install_packages (distro : option string) : M X unit :=
  match distro with
  | None => raise AttributeError
  | Some d =>
      match select_pkg_cmd d with
      | Some pkg_cmd => run_command pkg_cmd "Installing dependencies"
      | None => print unrecognized_warning
      end
  end.

(** [install_geant4], lines 131-145: the tarball. *)
Definition fetch_source (tarball url : string) : M X unit :=
  present <- path_exists tarball;;
  (if present : bool then
     print ("[WARNING] " ++ tarball ++ " already exists.");;
     answer <- input tarball_prompt;;
     let choice := PyStr.lower (PyStr.strip answer) in
     if (choice =? "r")%string then
       run_command ("rm -f " ++ tarball) "Removing existing tarball";;
       run_command ("wget " ++ url) "Downloading Geant4 Source"
     else if (choice =? "s")%string then
       print "[INFO] Using existing tarball."
     else
       print "[INFO] Aborting.";;
       exit 0
   else
     run_command ("wget " ++ url) "Downloading Geant4 Source");;
  run_command ("tar xzfv " ++ tarball) "Extracting Source Code".

(** [install_geant4], lines 147-160: the build directory. *)
Definition prepare_build_dir (build_dir : string) : M X unit :=
  present <- path_exists build_dir;;
  if present : bool then
    entries <- listdir build_dir;;
    match entries with
    | _ :: _ =>
        print ("[WARNING] Build dir '" ++ build_dir ++ "' not empty.");;
        answer <- input build_prompt;;
        let choice := PyStr.lower (PyStr.strip answer) in
        if (choice =? "c")%string then
          run_command ("rm -rf " ++ build_dir) "Clearing build directory";;
          makedirs build_dir false
        else if (choice =? "s")%string then
          print "[INFO] Continuing with existing build dir."
        else
          print "[INFO] Aborting.";;
          exit 0
    | [] => ret tt
    end
  else makedirs build_dir false.

(** [install_geant4], lines 206-209: the alias in the shell profile. *)
Definition shell_integration (install_path : string) : M X unit :=
  let bashrc := PyStr.path_join (home_dir m) ".bashrc" in
  append_file bashrc (nl ++ alias_cmd install_path ++ nl).

(** [install_geant4()] *)
Definition install_geant4 : M X unit :=
  detected <- detect_os;;
  let '(os_type, distro) := detected in
  match os_type with
  | Windows =>
      print (nl ++ "[WARNING] Script only supports Linux or WSL. Windows script is under development." ++ nl);;
      exit 1
  | _ =>
      let script_dir := get_script_directory in
      let geant4_dir := PyStr.path_join script_dir "Geant4" in
      makedirs geant4_dir true;;
      chdir geant4_dir;;
      version <- get_latest_geant4_version;;
      let tarball := tarball_name version in
      let src_dir := src_dir_name version in
      let build_dir := build_dir_name version in
      fetch_source tarball (tar_url version);;
      prepare_build_dir build_dir;;
      chdir build_dir;;
      install_packages distro;;
      let install_path := install_path_of script_dir version in
      print ("[INFO] Install path: " ++ install_path ++ nl);;
      temp_path <- write_temp m (instructions install_path);;
      run_command ("xdg-open " ++ temp_path) "Opening CMake Instructions";;
      input "Press Enter to open the CMake configuration...";;
      run_command ("ccmake ../" ++ src_dir) "Running CMake";;
      input "Press Enter after completing configuration in CMake...";;
      cores <- get_cpu_cores;;
      run_command ("make -j" ++ PyStr.str_of_Z cores) "Compiling Geant4";;
      run_command "make install" "Installing Geant4";;
      shell_integration install_path;;
      print (nl ++ "[INFO] Added alias to .bashrc. Run 'source ~/.bashrc' to activate it.");;
      print "[SUCCESS] Geant4 v{version} installed successfully!"
  end.

(** Running the script as a process. *)
Definition main (w : world X) : Z * world X :=
  let (o, w') := install_geant4 w in (exit_code o, w').
End Program.

End Alpha.

(** ** Vocabulary of the specification *)

Module Spec.
Import PyStr Sys Alpha.
Local Open Scope list_scope.

(** Texts the pattern of the Version Resolver captures. *)
Fixpoint all_digits (s : string) : bool :=
  match s with
  | EmptyString => true
  | String c r => is_digit c && all_digits r
  end.

Definition number_text (d : string) : Prop := d <> "" /\ all_digits d = true.

Inductive version_text : string -> Prop :=
| version_two d1 d2 :
    number_text d1 -> number_text d2 -> version_text (d1 ++ "." ++ d2)
| version_three d1 d2 d3 :
    number_text d1 -> number_text d2 -> number_text d3 ->
    version_text ((d1 ++ "." ++ d2) ++ "." ++ d3).

(** Order of a decorated list: no element is smaller than a later one. *)
Definition dec_ge {A} (x y : list Z * A) : Prop :=
  key_lt (fst x) (fst y) = false.

Definition keyed {A} (key : A -> option (list Z)) (x : list Z * A) : Prop :=
  key (snd x) = Some (fst x).

Definition by_key_ge {A} (key : A -> option (list Z)) (a b : A) : Prop :=
  match key a, key b with
  | Some ka, Some kb => key_lt ka kb = false
  | _, _ => False
  end.

(** [a] is not below [b] in the numeric tuple order. *)
Definition key_ge (a b : string) : Prop := by_key_ge version_key a b.


(** *** Traces *)

(** The events a computation added, given the worlds before and after. *)
Definition new_events {X} (w w' : world X) : list event :=
  drop (length (trace w)) (trace w').

(** The commands run through the shell, in order. *)
Definition commands (evs : list event) : list string :=
  flat_map (fun e => match e with EvShell cmd _ => [cmd] | _ => [] end) evs.

(** [c] only adds events, and what it adds and how it ends satisfy [Q]. *)
Definition sat {X A} (Q : list event -> outcome A -> Prop) (c : M X A) : Prop :=
  forall w, exists evs,
    trace (snd (c w)) = trace w ++ evs /\ Q evs (fst (c w)).

(** An answer at a three-way prompt, as the script compares it. *)
Definition normalized (answer : string) : string := lower (strip answer).

(** Events that settle the exit status: a command that failed, a tags page
    without a version, an answer at a three-way prompt that is neither of
    the two that continue. *)
Definition verdict (e : event) : option Z :=
  match e with
  | EvShell _ status => if status =? 0 then None else Some 1
  | EvHttpGet _ (Some text) =>
      match findall text with
      | [] => Some 1
      | _ :: _ => None
      end
  | EvInput prompt (Some answer) =>
      if (prompt =? tarball_prompt)%string then
        if (normalized answer =? "r")%string || (normalized answer =? "s")%string
        then None else Some 0
      else if (prompt =? build_prompt)%string then
        if (normalized answer =? "c")%string || (normalized answer =? "s")%string
        then None else Some 0
      else None
  | _ => None
  end.

Definition fatal {A} (evs : list event) (o : outcome A) : Prop :=
  forall e c, e ∈ evs -> verdict e = Some c -> o = Exit c.

(** *** Messages of [run_command] *)

Definition info_msg (description : string) : string :=
  nl +:+ "[INFO] " +:+ description +:+ "...".
Definition success_msg (description : string) : string :=
  "[SUCCESS] " +:+ description +:+ " completed!" +:+ nl.
Definition error_msg (description command : string) (status : Z) : string :=
  "[ERROR] " +:+ description +:+ " failed: "
    +:+ called_process_error_str command status +:+ nl.

(** *** The CPU-core prompt *)



(** Events that only write to the console. *)
Definition is_print (e : event) : Prop :=
  match e with
  | EvPrint _ => True
  | _ => False
  end.

(** *** The Dependency Installer *)

(** The substrings the installer looks for, and the command each stands
    for, as the specification lists them. *)
Definition known_names : list string :=
  ["arch"; "ubuntu"; "debian"; "mint"; "opensuse"; "rocky"; "rhel"; "fedora"].

Definition mentions (distro name : string) : bool :=
  contains name (lower distro).

Definition template_for (name release : string) : option string :=
  if (name =? "arch")%string then Some pacman_cmd
  else if (name =? "ubuntu")%string || (name =? "debian")%string
          || (name =? "mint")%string then Some apt_cmd
  else if (name =? "opensuse")%string then Some zypper_cmd
  else if (name =? "rocky")%string || (name =? "rhel")%string
  then Some dnf_rhel_cmd
  else if (name =? "fedora")%string then
    Some (if startswith "41" release then dnf5_fedora_cmd else dnf_fedora_cmd)
  else None.

(** *** The OS/Distro Detector *)

(** The OS type as the specification words it: Windows by the reported OS
    name, WSL by the kernel release, otherwise Linux. *)
Definition classify {X} (m : machine X) : os_type :=
  if (os_name m =? "nt")%string then Windows
  else if contains "microsoft" (lower (platform_release m)) then WSL
  else Linux.

(** *** Names derived from the version *)


(** *** Repeated runs *)



(** *** The three-way prompts *)

(** The world once the warning is printed and the answer is read. *)
Definition tarball_asked {X} (tarball answer : string) (rest : list string)
    (w : world X) : world X :=
  log (EvInput tarball_prompt (Some answer))
    (take_line rest
       (log (EvPrint ("[WARNING] " +:+ tarball +:+ " already exists.")) w)).

Definition build_asked {X} (build_dir answer : string) (rest : list string)
    (w : world X) : world X :=
  log (EvInput build_prompt (Some answer))
    (take_line rest
       (log (EvPrint ("[WARNING] Build dir '" +:+ build_dir +:+ "' not empty.")) w)).

(** *** The version prompt *)



(** The body of the loop of [get_latest_geant4_version], as it stands in
    the definition of that function. *)
Definition choice_body {X} (versions : list string) (s : string)
  : M X (option string) :=
  match int s with
  | Some choice =>
      if (1 <=? choice) && (choice <=? 5) then
        match nth_error versions (Z.to_nat (choice - 1)) with
        | Some v => ret (Some v)
        | None => raise IndexError
        end
      else bind (print invalid_input) (fun _ => ret None)
  | None => bind (print invalid_input) (fun _ => ret None)
  end.

(** *** Commands and their statuses *)

(** The shell commands with their exit statuses, in order. *)
Definition shell_log (evs : list event) : list (string * Z) :=
  flat_map (fun e => match e with EvShell cmd st => [(cmd, st)] | _ => [] end) evs.




(** *** Events of the detector *)

(** Console output and the query of [lsb_release]. *)
Definition is_probe (e : event) : Prop :=
  match e with
  | EvPrint _ | EvLsbRelease _ => True
  | _ => False
  end.

(** *** Characters of a text *)

(** No character of [s] is [c]. *)
Fixpoint char_free (c : ascii) (s : string) : bool :=
  match s with
  | EmptyString => true
  | String x r => negb (Ascii.eqb x c) && char_free c r
  end.

(** The line of [/etc/os-release] that names the distribution. *)
Definition pretty_name_line (value : string) : string :=
  "PRETTY_NAME=" +:+ dq +:+ value +:+ dq +:+ nl.

(** *** The end of a run *)

(** After an event that settles the exit status, the script only prints
    and ends with that status. *)
Definition halting {A} (evs : list event) (o : outcome A) : Prop :=
  forall pre e post c,
    evs = pre ++ e :: post -> verdict e = Some c ->
    o = Exit c /\ Forall is_print post.

(** *** Progress of a run *)

(** [w'] comes after [w]: its trace is that of [w] followed by events
    whose commands and statuses are [l]. *)
Definition grows_by {X} (w w' : world X) (l : list (string * Z)) : Prop :=
  exists evs, trace w' = trace w ++ evs /\ shell_log evs = l.

End Spec.

(** ** Hosts used in examples *)

Module Hosts.
Import PyStr Sys Alpha.

(** A set that hands out its elements in the order of first insertion. *)
Definition insertion_order (l : list string) : list string := remove_dups l.

Definition quiet_shell (cmd : string) (w : world unit) : Z * world unit := (0, w).

(** A Linux host without [lsb_release] output, where every command
    succeeds and changes nothing. *)
Definition ubuntu (tags_page : string) : machine unit :=
  Machine "posix" "Linux" "6.1.0-generic" "/home/u/Gent/Alpha.py" "/home/u"
    (fun _ => Completed 1 "")
    (fun _ _ => Some tags_page)
    quiet_shell
    (fun _ => Some "/tmp/tmpabc.txt")
    insertion_order
    (fun l => conj (NoDup_remove_dups l) (elem_of_remove_dups l)).

Definition ubuntu_fs : gmap string node :=
  <["/etc/os-release" :=
      File false ("NAME=Ubuntu" ++ nl ++ "PRETTY_NAME=" ++ dq
                    ++ "Ubuntu 22.04.3 LTS" ++ dq ++ nl)]>
  (<["/home/u/Gent" := Dir ["Alpha.py"]]> ∅).

Definition ubuntu_world (lines : list string) : world unit :=
  World ubuntu_fs "/home/u/Gent" lines [] tt.

(** An image whose [/etc/os-release] has no [PRETTY_NAME] line. *)
Definition minimal_world : world unit :=
  World
    (<["/etc/os-release" := File false ("NAME=Buildroot" +:+ nl +:+ "ID=buildroot" +:+ nl)]>
       (<["/home/u/Gent" := Dir ["Alpha.py"]]> ∅))
    "/home/u/Gent" [] [] tt.

(** The working directory with the tarball of 11.2.2 already there and a
    build directory that holds a file. *)
Definition geant4_fs : gmap string node :=
  <["/home/u/Gent/Geant4/geant4-v11.2.2.tar.gz" := File true "archive"]>
  (<["/home/u/Gent/Geant4/geant4-v11.2.2-build" := Dir ["CMakeCache.txt"]]>
  (<["/home/u/Gent/Geant4" := Dir ["geant4-v11.2.2.tar.gz"]]>
  (<["/home/u/.bashrc" := File true "# .bashrc"]> ubuntu_fs))).

Definition geant4_world (lines : list string) : world unit :=
  World geant4_fs "/home/u/Gent/Geant4" lines [] tt.

(** A shell in which [rm -rf d] removes [d] and every command succeeds. *)
Definition removing_shell (cmd : string) (w : world unit) : Z * world unit :=
  if String.prefix "rm -rf " cmd then
    let d := substring 7 (String.length cmd - 7)%nat cmd in
    (0, set_fs (delete (resolve w d) (fs w)) w)
  else (0, w).

Definition cleaning (tags_page : string) : machine unit :=
  Machine "posix" "Linux" "6.1.0-generic" "/home/u/Gent/Alpha.py" "/home/u"
    (fun _ => Completed 1 "")
    (fun _ _ => Some tags_page)
    removing_shell
    (fun _ => Some "/tmp/tmpabc.txt")
    insertion_order
    (fun l => conj (NoDup_remove_dups l) (elem_of_remove_dups l)).

(** A Windows host. *)
Definition windows : machine unit :=
  Machine "nt" "Windows" "10" "C:/Gent/Alpha.py" "C:/Users/u"
    (fun _ => NotStarted)
    (fun _ _ => None)
    quiet_shell
    (fun _ => None)
    insertion_order
    (fun l => conj (NoDup_remove_dups l) (elem_of_remove_dups l)).

End Hosts.

(** ** Facts about the string primitives *)

Module PyStrFacts.
Import PyStr Sys Alpha Spec.

Lemma digit_not_space c : is_digit c = true -> is_space c = false.
Proof.
  destruct c as [[] [] [] [] [] [] [] []]; vm_compute; intros H;
    try discriminate H; reflexivity.
Qed.

Lemma digit_not_sign c :
  is_digit c = true ->
  Ascii.eqb c "+" = false /\ Ascii.eqb c "-" = false /\ Ascii.eqb c "." = false.
Proof.
  destruct c as [[] [] [] [] [] [] [] []]; vm_compute; intros H;
    try discriminate H; repeat split; reflexivity.
Qed.

Lemma span_digits_spec s d t :
  span_digits s = (d, t) -> all_digits d = true /\ s = d ++ t.
Proof.
  revert d t; induction s as [|c s IH]; simpl; intros d t H.
  - inversion H; auto.
  - destruct (is_digit c) eqn:E.
    + destruct (span_digits s) as [d' t']. inversion H; subst.
      destruct (IH _ _ eq_refl) as [Hd Hs]. simpl. rewrite E, Hd. split; [reflexivity | rewrite Hs; reflexivity].
    + inversion H; auto.
Qed.

Lemma match_at_version s g n : match_at s = Some (g, n) -> version_text g.
Proof.
  unfold match_at. destruct (expect "v" s) as [r|]; [|discriminate].
  destruct (span_digits r) as [d1 r1] eqn:E1.
  destruct d1 as [|c1 d1]; [discriminate|].
  destruct (expect "." r1) as [r2|]; [|discriminate].
  destruct (span_digits r2) as [d2 r3] eqn:E2.
  destruct d2 as [|c2 d2]; [discriminate|].
  apply span_digits_spec in E1 as [H1 _]. apply span_digits_spec in E2 as [H2 _].
  assert (N1 : number_text (String c1 d1)) by (split; [discriminate|assumption]).
  assert (N2 : number_text (String c2 d2)) by (split; [discriminate|assumption]).
  destruct (expect "." r3) as [r4|].
  - destruct (span_digits r4) as [d3 r5] eqn:E3.
    apply span_digits_spec in E3 as [H3 _].
    destruct d3 as [|c3 d3]; intros [= <- _].
    + now apply version_two.
    + apply version_three; auto. split; [discriminate|assumption].
  - intros [= <- _]. now apply version_two.
Qed.

Lemma findall_from_version k s g : g ∈ findall_from k s -> version_text g.
Proof.
  revert k; induction s as [|c s IH]; simpl; intros k H.
  - inversion H.
  - destruct k as [|k]; [|eauto].
    destruct (match_at (String c s)) as [[g' n]|] eqn:E; [|eauto].
    apply elem_of_cons in H as [->|H]; [|eauto].
    eapply match_at_version; eauto.
Qed.

Lemma findall_version text g : g ∈ findall text -> version_text g.
Proof. apply findall_from_version. Qed.

Lemma rstrip_by_id p s :
  (forall c, p c = true -> is_digit c = false) ->
  all_digits s = true -> rstrip_by p s = s.
Proof.
  intros Hp. induction s as [|c s IH]; simpl; [easy|].
  intros [Hc Hs]%andb_prop. rewrite (IH Hs).
  destruct s; [|reflexivity].
  destruct (p c) eqn:E; [|reflexivity]. apply Hp in E. congruence.
Qed.

Lemma strip_digits d : all_digits d = true -> strip d = d.
Proof.
  intros H. unfold strip, strip_by.
  assert (L : lstrip_by is_space d = d).
  { destruct d as [|c d]; simpl in *; [easy|].
    apply andb_prop in H as [Hc _]. now rewrite (digit_not_space _ Hc). }
  rewrite L. apply rstrip_by_id; [|assumption].
  intros c Hc. destruct (is_digit c) eqn:E; [|reflexivity].
  apply digit_not_space in E. congruence.
Qed.

Lemma parse_dec_digits d : forall acc b,
  all_digits d = true -> (d <> "" \/ b = true) -> is_Some (parse_dec acc b d).
Proof.
  induction d as [|c d IH]; simpl; intros acc b H Hb.
  - destruct Hb as [?| ->]; [congruence | eauto].
  - apply andb_prop in H as [Hc Hd]. rewrite Hc. apply IH; auto.
Qed.

Lemma int_number_text d : number_text d -> is_Some (int d).
Proof.
  intros [Hne Hd]. unfold int. rewrite (strip_digits _ Hd).
  destruct d as [|c d]; [congruence|].
  pose proof Hd as Hd'. simpl in Hd'. apply andb_prop in Hd' as [Hc _].
  destruct (digit_not_sign _ Hc) as (-> & -> & _).
  apply parse_dec_digits; auto.
Qed.

Lemma split_digits_dot d rest :
  all_digits d = true -> split "." (d ++ String "." rest) = d :: split "." rest.
Proof.
  induction d as [|c d IH]; simpl; intros H; [reflexivity|].
  apply andb_prop in H as [Hc Hd].
  destruct (digit_not_sign _ Hc) as (_ & _ & ->). now rewrite (IH Hd).
Qed.

Lemma split_digits d : all_digits d = true -> split "." d = [d].
Proof.
  induction d as [|c d IH]; simpl; intros H; [reflexivity|].
  apply andb_prop in H as [Hc Hd].
  destruct (digit_not_sign _ Hc) as (_ & _ & ->). now rewrite (IH Hd).
Qed.

Lemma append_cons c s t : String c s ++ t = String c (s ++ t).
Proof. reflexivity. Qed.

Lemma append_assoc a b c : (a ++ b) ++ c = a ++ (b ++ c).
Proof.
  induction a as [|x a IH]; [reflexivity|].
  now rewrite !append_cons, IH.
Qed.

Lemma version_key_total g : version_text g -> is_Some (version_key g).
Proof.
  intros [d1 d2 H1 H2 | d1 d2 d3 H1 H2 H3]; unfold version_key.
  - change (d1 ++ "." ++ d2) with (d1 ++ String "." d2).
    rewrite split_digits_dot, split_digits by apply H1 || apply H2.
    simpl. destruct (int_number_text _ H1) as [n1 ->], (int_number_text _ H2) as [n2 ->]. eauto.
  - rewrite append_assoc.
    change (d1 ++ ("." ++ d2) ++ "." ++ d3) with (d1 ++ String "." (d2 ++ String "." d3)).
    rewrite !split_digits_dot, split_digits by apply H1 || apply H2 || apply H3.
    simpl. destruct (int_number_text _ H1) as [n1 ->], (int_number_text _ H2) as [n2 ->],
      (int_number_text _ H3) as [n3 ->]. eauto.
Qed.

Lemma key_lt_asym a : forall b, key_lt a b = true -> key_lt b a = false.
Proof.
  induction a as [|x a IH]; intros [|y b]; simpl; try easy.
  destruct (Z.ltb_spec x y), (Z.ltb_spec y x); try easy; try lia. apply IH.
Qed.

Lemma key_ge_trans a : forall b c,
  key_lt a b = false -> key_lt b c = false -> key_lt a c = false.
Proof.
  induction a as [|x a IH]; intros [|y b] [|z c]; simpl; try easy.
  destruct (Z.ltb_spec x y), (Z.ltb_spec y x), (Z.ltb_spec y z), (Z.ltb_spec z y),
    (Z.ltb_spec x z), (Z.ltb_spec z x); try easy; try lia. apply IH.
Qed.

Section SortedFacts.
Context {A : Type}.
Implicit Types (x y : list Z * A) (l d : list (list Z * A)).

Lemma insert_desc_perm x l : insert_desc x l ≡ₚ x :: l.
Proof.
  induction l as [|y l IH]; simpl; [reflexivity|].
  destruct (key_lt (fst x) (fst y)); [|reflexivity].
  rewrite IH. apply perm_swap.
Qed.

Lemma sort_desc_perm l : sort_desc l ≡ₚ l.
Proof.
  induction l as [|x l IH]; simpl; [reflexivity|].
  now rewrite insert_desc_perm, IH.
Qed.

Lemma insert_desc_sorted x l :
  StronglySorted dec_ge l -> StronglySorted dec_ge (insert_desc x l).
Proof.
  induction 1 as [|y l Hs IH Hy]; simpl.
  - repeat constructor.
  - destruct (key_lt (fst x) (fst y)) eqn:E.
    + constructor; [assumption|].
      rewrite insert_desc_perm. constructor; [|assumption].
      now apply key_lt_asym.
    + constructor; [now constructor|].
      constructor; [assumption|].
      eapply Forall_impl; [exact Hy|].
      intros z Hz. eapply key_ge_trans; eassumption.
Qed.

Lemma sort_desc_sorted l : StronglySorted dec_ge (sort_desc l).
Proof.
  induction l as [|x l IH]; simpl; [constructor|].
  now apply insert_desc_sorted.
Qed.

Variable key : A -> option (list Z).

Lemma decorate_spec (l : list A) d :
  decorate key l = Some d -> map snd d = l /\ Forall (keyed key) d.
Proof.
  revert d; induction l as [|a l IH]; simpl; intros d H.
  - inversion H. split; [reflexivity|constructor].
  - destruct (key a) as [k|] eqn:E; [|discriminate].
    destruct (decorate key l) as [d'|]; [|discriminate].
    inversion H; subst. destruct (IH _ eq_refl) as [<- HF].
    split; [reflexivity|]. constructor; assumption.
Qed.

Lemma decorate_total (l : list A) :
  Forall (fun a => is_Some (key a)) l -> is_Some (decorate key l).
Proof.
  induction 1 as [|a l [k Hk] _ [d Hd]]; simpl; [eauto|].
  rewrite Hk, Hd. eauto.
Qed.

Lemma undecorate_sorted d :
  Forall (keyed key) d -> StronglySorted dec_ge d ->
  StronglySorted (by_key_ge key) (map snd d).
Proof.
  intros HF HS. induction HS as [|x d HS IH Hx]; simpl; [constructor|].
  apply Forall_cons in HF as [Kx Kd].
  constructor; [auto|].
  apply Forall_map. rewrite Forall_forall in Hx, Kd |- *.
  intros y Hy. unfold by_key_ge. rewrite Kx, (Kd y Hy). now apply Hx.
Qed.

Lemma sorted_desc_spec (l : list A) :
  Forall (fun a => is_Some (key a)) l ->
  exists r, sorted_desc key l = Some r /\ r ≡ₚ l /\ StronglySorted (by_key_ge key) r.
Proof.
  intros H. destruct (decorate_total _ H) as [d Hd].
  unfold sorted_desc. rewrite Hd. simpl. eexists; split; [reflexivity|].
  destruct (decorate_spec _ _ Hd) as [Hm HF]. split.
  - rewrite <- Hm. apply Permutation_map, sort_desc_perm.
  - apply undecorate_sorted; [|apply sort_desc_sorted].
    now rewrite sort_desc_perm.
Qed.
End SortedFacts.




Lemma ends_with_slash_cons c s :
  s <> ""%string -> ends_with_slash (String c s) = ends_with_slash s.
Proof. destruct s; [congruence|reflexivity]. Qed.




End PyStrFacts.

(** ** Facts about traces *)

Module SysFacts.
Import PyStr Sys Alpha Spec PyStrFacts.
Local Open Scope list_scope.

Section TraceFacts.
Context {X : Type}.
Implicit Types (w : world X).

Lemma new_events_app w w' evs :
  trace w' = trace w ++ evs -> new_events w w' = evs.
Proof. intros H. unfold new_events. rewrite H. apply drop_app_length. Qed.

Lemma fatal_nil {A} (o : outcome A) : fatal [] o.
Proof. intros e c H. inversion H. Qed.

Lemma sat_ret {A} (a : A) : sat fatal (ret (X:=X) a).
Proof. intros w. exists []. simpl. rewrite app_nil_r. split; [reflexivity|apply fatal_nil]. Qed.

Lemma sat_exit {A} c : sat fatal (exit (X:=X) (A:=A) c).
Proof. intros w. exists []. simpl. rewrite app_nil_r. split; [reflexivity|apply fatal_nil]. Qed.

Lemma sat_raise {A} e : sat fatal (raise (X:=X) (A:=A) e).
Proof. intros w. exists []. simpl. rewrite app_nil_r. split; [reflexivity|apply fatal_nil]. Qed.

Lemma fatal_harmless {A} evs (o : outcome A) :
  Forall (fun e => verdict e = None) evs -> fatal evs o.
Proof.
  intros H e c Hin Hv. rewrite Forall_forall in H. rewrite (H e Hin) in Hv. discriminate.
Qed.

Lemma sat_print t : sat fatal (print (X:=X) t).
Proof.
  intros w. exists [EvPrint t]. split; [reflexivity|].
  apply fatal_harmless. repeat constructor.
Qed.

Lemma sat_input p :
  (p =? tarball_prompt)%string = false -> (p =? build_prompt)%string = false ->
  sat fatal (input (X:=X) p).
Proof.
  intros H1 H2 w. unfold input. destruct (stdin w) as [|l r]; simpl.
  - exists [EvInput p None]. split; [reflexivity|]. apply fatal_harmless. repeat constructor.
  - exists [EvInput p (Some l)]. split; [reflexivity|]. apply fatal_harmless.
    repeat constructor. simpl. now rewrite H1, H2.
Qed.

Lemma sat_bind {A B} (c : M X A) (f : A -> M X B) :
  sat fatal c -> (forall a, sat fatal (f a)) -> sat fatal (bind c f).
Proof.
  intros Hc Hf w. unfold bind. destruct (Hc w) as (evs1 & T1 & F1).
  destruct (c w) as [[a|code|e] w1]; simpl in *.
  - destruct (Hf a w1) as (evs2 & T2 & F2). exists (evs1 ++ evs2). split.
    + now rewrite T2, T1, app_assoc.
    + intros e c' [Hin|Hin]%elem_of_app Hv; [|eauto].
      specialize (F1 e c' Hin Hv). discriminate.
  - exists evs1. split; [assumption|]. intros e c' Hin Hv.
    specialize (F1 e c' Hin Hv). congruence.
  - exists evs1. split; [assumption|]. intros e' c' Hin Hv.
    specialize (F1 e' c' Hin Hv). discriminate.
Qed.

Lemma sat_quiet {A} (c : M X A) :
  (forall w, trace (snd (c w)) = trace w) -> sat fatal c.
Proof.
  intros H w. exists []. rewrite app_nil_r. split; [apply H|apply fatal_nil].
Qed.

Lemma sat_path_exists p : sat fatal (path_exists (X:=X) p).
Proof. now apply sat_quiet. Qed.

Lemma sat_listdir p : sat fatal (listdir (X:=X) p).
Proof.
  apply sat_quiet. intros w. unfold listdir.
  destruct (fs w !! resolve w p) as [[]|]; reflexivity.
Qed.

Lemma sat_makedirs p b : sat fatal (makedirs (X:=X) p b).
Proof.
  apply sat_quiet. intros w. unfold makedirs.
  destruct (fs w !! resolve w p) as [[]|], b; reflexivity.
Qed.

Lemma sat_chdir p : sat fatal (chdir (X:=X) p).
Proof.
  apply sat_quiet. intros w. unfold chdir.
  destruct (fs w !! resolve w p) as [[]|]; reflexivity.
Qed.

Lemma sat_append_file p t : sat fatal (append_file (X:=X) p t).
Proof.
  apply sat_quiet. intros w. unfold append_file.
  destruct (fs w !! resolve w p) as [[[] ?|]|]; reflexivity.
Qed.

Lemma sat_write_temp (m : machine X) t : sat fatal (write_temp m t).
Proof.
  apply sat_quiet. intros w. unfold write_temp.
  destruct (mktemp m w); reflexivity.
Qed.

Lemma sat_while_input {A} p (body : string -> M X (option A)) :
  (p =? tarball_prompt)%string = false -> (p =? build_prompt)%string = false ->
  (forall l, sat fatal (body l)) -> sat fatal (while_input p body).
Proof.
  intros H1 H2 Hb w. unfold while_input. generalize (stdin w) as lines.
  intros lines; revert w; induction lines as [|l rest IH]; intros w; simpl.
  - exists [EvInput p None]. split; [reflexivity|]. apply fatal_harmless. repeat constructor.
  - set (w1 := log (EvInput p (Some l)) (take_line rest w)).
    destruct (Hb l w1) as (evs1 & T1 & F1).
    assert (Hp : verdict (EvInput p (Some l)) = None) by (simpl; now rewrite H1, H2).
    destruct (body l w1) as [[[a|]|code|e] w2]; simpl in T1, F1 |- *.
    + exists (EvInput p (Some l) :: evs1). split; [now rewrite T1, <- app_assoc|].
      intros e c [->|Hin]%elem_of_cons Hv; [congruence|].
      specialize (F1 e c Hin Hv). discriminate.
    + destruct (IH w2) as (evs2 & T2 & F2).
      exists (EvInput p (Some l) :: evs1 ++ evs2). split.
      * rewrite T2, T1. now rewrite <- !app_assoc.
      * intros e c [->|[Hin|Hin]%elem_of_app]%elem_of_cons Hv; [congruence| |eauto].
        specialize (F1 e c Hin Hv). discriminate.
    + exists (EvInput p (Some l) :: evs1). split; [now rewrite T1, <- app_assoc|].
      intros e c [->|Hin]%elem_of_cons Hv; [congruence|].
      specialize (F1 e c Hin Hv). congruence.
    + exists (EvInput p (Some l) :: evs1). split; [now rewrite T1, <- app_assoc|].
      intros e' c [->|Hin]%elem_of_cons Hv; [congruence|].
      specialize (F1 e' c Hin Hv). discriminate.
Qed.

Lemma sat_run_command (m : machine X) cmd desc : sat fatal (run_command m cmd desc).
Proof.
  intros w. unfold run_command, bind, print, run_shell, exit. simpl.
  destruct (shell m cmd _) as [st w'] eqn:E. simpl.
  destruct (Z.eqb_spec st 0) as [->|Hst]; simpl.
  - eexists. split; [rewrite <- !app_assoc; reflexivity|].
    apply fatal_harmless. repeat constructor.
  - eexists. split; [rewrite <- !app_assoc; reflexivity|].
    intros e c Hin Hv. simpl in Hin.
    repeat (apply elem_of_cons in Hin as [->|Hin]); try inversion Hin; simpl in Hv;
      try discriminate.
    destruct (Z.eqb_spec st 0); congruence.
Qed.
End TraceFacts.

Section StageFacts.
Context {X : Type} (m : machine X).
Implicit Types (w : world X).

Lemma sat_input_choice {A} p (f : string -> M X A) :
  (forall l, sat fatal (f l)) ->
  (forall l c, verdict (EvInput p (Some l)) = Some c ->
               forall w, fst (f l w) = Exit c) ->
  sat fatal (bind (input p) f).
Proof.
  intros Hf Hc w. unfold bind, input. destruct (stdin w) as [|l r]; simpl.
  - exists [EvInput p None]. split; [reflexivity|]. apply fatal_harmless. repeat constructor.
  - set (w1 := log _ _). destruct (Hf l w1) as (evs & T & F).
    exists (EvInput p (Some l) :: evs). split.
    { rewrite T. subst w1. simpl. now rewrite <- app_assoc. }
    intros e c [->|Hin]%elem_of_cons Hv; [now apply Hc|eauto].
Qed.

Lemma sat_after_event {A} (e : event) (c : M X A) w :
  sat fatal c ->
  (forall code, verdict e = Some code -> fst (c (log e w)) = Exit code) ->
  exists evs, trace (snd (c (log e w))) = trace w ++ evs
              /\ fatal evs (fst (c (log e w))).
Proof.
  intros Hc He. destruct (Hc (log e w)) as (evs & T & F).
  exists (e :: evs). split; [rewrite T; simpl; now rewrite <- app_assoc|].
  intros e' code [->|Hin]%elem_of_cons Hv; [now apply He|eauto].
Qed.

Ltac sat_step :=
  first [ apply sat_ret | apply sat_exit | apply sat_raise | apply sat_print
        | apply sat_path_exists | apply sat_listdir | apply sat_makedirs
        | apply sat_chdir | apply sat_append_file | apply sat_write_temp
        | apply sat_run_command
        | apply sat_input; reflexivity
        | apply sat_while_input; [reflexivity | reflexivity | intros ?]
        | apply sat_bind; [ | intros ? ]
        | match goal with
          | |- sat _ (if ?b then _ else _) => destruct b
          | |- sat _ (match ?x with _ => _ end) => destruct x
          end ].
Ltac sat_auto := repeat sat_step.

Lemma sat_get_cpu_cores : sat fatal (get_cpu_cores (X:=X)).
Proof. unfold get_cpu_cores. sat_auto. Qed.

Lemma sat_get_linux_distro : sat fatal (get_linux_distro m).
Proof.
  intros w. unfold get_linux_distro. exists [EvLsbRelease (lsb_release m w)]. split.
  - destruct (lsb_release m w) as [[|?|?] ?|]; simpl;
      try destruct (read_lines _ _); reflexivity.
  - apply fatal_harmless. repeat constructor.
Qed.

Lemma sat_detect_os : sat fatal (detect_os m).
Proof.
  unfold detect_os. apply sat_bind.
  - destruct (_ =? _)%string; [apply sat_get_linux_distro | apply sat_ret].
  - intros d. sat_auto.
Qed.

Lemma sat_print_menu i vers : sat fatal (print_menu (X:=X) i vers).
Proof. revert i; induction vers as [|v vers IH]; intros i; simpl; sat_auto. apply IH. Qed.

Lemma set_order_nil : set_order m [] = [].
Proof.
  destruct (set_order_enum m []) as [_ H]. destruct (set_order m []) as [|x l]; [reflexivity|].
  exfalso. apply (not_elem_of_nil x), H. constructor.
Qed.

Lemma bind_get_text {A} url (f : string -> M X A) w :
  bind (get_text m url) f w =
  match http_get m url w with
  | Some t => f t (log (EvHttpGet url (Some t)) w)
  | None => (Raise RequestException, log (EvHttpGet url None) w)
  end.
Proof. unfold bind, get_text. now destruct (http_get m url w). Qed.

Lemma sat_get_latest_geant4_version : sat fatal (get_latest_geant4_version m).
Proof.
  intros w. unfold get_latest_geant4_version. rewrite bind_get_text.
  destruct (http_get m tags_url w) as [text|].
  - apply sat_after_event.
    + destruct (sorted_versions _) as [[|v vs]|]; sat_auto. apply sat_print_menu.
    + simpl. destruct (findall text) eqn:E; [|discriminate]. intros code [= <-].
      now rewrite set_order_nil.
  - exists [EvHttpGet tags_url None]. split; [reflexivity|].
    apply fatal_harmless. repeat constructor.
Qed.

Lemma sat_install_packages d : sat fatal (install_packages m d).
Proof. unfold install_packages. sat_auto. Qed.

Lemma sat_fetch_source tarball url : sat fatal (fetch_source m tarball url).
Proof.
  unfold fetch_source. sat_step; [sat_step|]. sat_step; [|sat_step].
  destruct a; [|sat_step]. sat_step; [sat_step|].
  apply sat_input_choice.
  - intros l. sat_auto.
  - intros l c Hv w. unfold verdict in Hv. rewrite String.eqb_refl in Hv.
    unfold normalized in Hv.
    destruct (_ =? "r")%string; [discriminate|].
    destruct (_ =? "s")%string; [discriminate|].
    injection Hv as <-. reflexivity.
Qed.

Lemma sat_prepare_build_dir build_dir : sat fatal (prepare_build_dir m build_dir).
Proof.
  unfold prepare_build_dir. sat_step; [sat_step|].
  destruct a; [|sat_step]. sat_step; [sat_step|].
  destruct a as [|entry entries]; [sat_step|]. sat_step; [sat_step|].
  apply sat_input_choice.
  - intros l. sat_auto.
  - intros l c Hv w. unfold verdict in Hv.
    replace (build_prompt =? tarball_prompt)%string with false in Hv by reflexivity.
    rewrite String.eqb_refl in Hv. unfold normalized in Hv.
    destruct (_ =? "c")%string; [discriminate|].
    destruct (_ =? "s")%string; [discriminate|].
    injection Hv as <-. reflexivity.
Qed.

Lemma sat_shell_integration p : sat fatal (shell_integration m p).
Proof. unfold shell_integration. sat_auto. Qed.

Lemma sat_install_geant4 : sat fatal (install_geant4 m).
Proof.
  unfold install_geant4. apply sat_bind; [apply sat_detect_os|].
  intros [[] distro].
  - sat_auto.
  - sat_step; [sat_step|]. sat_step; [sat_step|].
    apply sat_bind; [apply sat_get_latest_geant4_version|intros version].
    apply sat_bind; [apply sat_fetch_source|intros _].
    apply sat_bind; [apply sat_prepare_build_dir|intros _].
    sat_step; [sat_step|]. apply sat_bind; [apply sat_install_packages|intros _].
    sat_step; [sat_step|]. sat_step; [sat_step|]. sat_step; [sat_step|].
    sat_step; [sat_step|]. sat_step; [sat_step|]. sat_step; [sat_step|].
    apply sat_bind; [apply sat_get_cpu_cores|intros cores].
    sat_step; [sat_step|]. sat_step; [sat_step|].
    apply sat_bind; [apply sat_shell_integration|intros _]. sat_auto.
  - sat_step; [sat_step|]. sat_step; [sat_step|].
    apply sat_bind; [apply sat_get_latest_geant4_version|intros version].
    apply sat_bind; [apply sat_fetch_source|intros _].
    apply sat_bind; [apply sat_prepare_build_dir|intros _].
    sat_step; [sat_step|]. apply sat_bind; [apply sat_install_packages|intros _].
    sat_step; [sat_step|]. sat_step; [sat_step|]. sat_step; [sat_step|].
    sat_step; [sat_step|]. sat_step; [sat_step|]. sat_step; [sat_step|].
    apply sat_bind; [apply sat_get_cpu_cores|intros cores].
    sat_step; [sat_step|]. sat_step; [sat_step|].
    apply sat_bind; [apply sat_shell_integration|intros _]. sat_auto.
Qed.
End StageFacts.

Section RunFacts.
Context {X : Type} (m : machine X).
Implicit Types (w : world X).

Lemma run_command_spec cmd desc w :
  exists st w',
    shell m cmd (log (EvPrint (info_msg desc)) w) = (st, w') /\
    run_command m cmd desc w =
      let w1 := World (fs w') (cwd w) (stdin w')
                  (trace w ++ [EvPrint (info_msg desc); EvShell cmd st]) (ext w') in
      if st =? 0 then (Ret tt, log (EvPrint (success_msg desc)) w1)
      else (Exit 1, log (EvPrint (error_msg desc cmd st)) w1).
Proof.
  unfold run_command, bind, print, run_shell, exit.
  change (nl +:+ "[INFO] " +:+ desc +:+ "...") with (info_msg desc).
  destruct (shell m cmd (log (EvPrint (info_msg desc)) w)) as [st w'] eqn:E.
  exists st, w'. split; [reflexivity|]. simpl. rewrite <- app_assoc. simpl.
  destruct (st =? 0); reflexivity.
Qed.

Lemma commands_run_command cmd desc w0 w :
  (exists pre, trace w = trace w0 ++ pre /\ commands pre = []) ->
  commands (new_events w0 (snd (run_command m cmd desc w))) = [cmd].
Proof.
  intros (pre & T & C).
  destruct (run_command_spec cmd desc w) as (st & w' & _ & ->).
  assert (H : forall e, new_events w0
      (log e (World (fs w') (cwd w) (stdin w')
         (trace w ++ [EvPrint (info_msg desc); EvShell cmd st]) (ext w')))
      = pre ++ [EvPrint (info_msg desc); EvShell cmd st; e]).
  { intros e. apply new_events_app. simpl. rewrite T, <- !app_assoc. reflexivity. }
  unfold commands in *.
  destruct (st =? 0); simpl snd; rewrite H, flat_map_app, C; reflexivity.
Qed.

Lemma print_menu_spec vers : forall i w,
  exists evs,
    print_menu i vers w =
      (Ret tt, World (fs w) (cwd w) (stdin w) (trace w ++ evs) (ext w))
    /\ Forall is_print evs.
Proof.
  induction vers as [|v vers IH]; intros i w; simpl.
  - exists []. rewrite app_nil_r. destruct w; split; [reflexivity|constructor].
  - unfold bind, print. simpl.
    destruct (IH (i + 1) (log (EvPrint ("  [" +:+ str_of_Z (i + 1) +:+ "] v" +:+ v)) w))
      as (evs & -> & HF).
    eexists (_ :: evs). split.
    + simpl. now rewrite <- app_assoc.
    + constructor; [exact I|assumption].
Qed.

Lemma sorted_versions_spec (text : string) :
  exists versions,
    sorted_versions (set_order m (findall text)) = Some versions /\
    versions ≡ₚ set_order m (findall text) /\
    StronglySorted key_ge versions.
Proof.
  apply sorted_desc_spec. apply Forall_forall. intros g Hg.
  apply version_key_total, (findall_version text).
  now apply (set_order_enum m).
Qed.


Lemma select_pkg_cmd_exactly_one distro name :
  name ∈ known_names ->
  (forall k, k ∈ known_names -> mentions distro k = true <-> k = name) ->
  select_pkg_cmd m distro = template_for name (platform_release m)
  /\ is_Some (template_for name (platform_release m)).
Proof.
  intros Hname Hex. unfold mentions in Hex.
  assert (Hk : forall k, k ∈ known_names ->
                contains k (lower distro) = bool_decide (k = name)).
  { intros k Hk. specialize (Hex k Hk). case_bool_decide as E.
    - now apply Hex.
    - destruct (contains k (lower distro)); [|reflexivity].
      exfalso. apply E, Hex. reflexivity. }
  unfold select_pkg_cmd. cbn [existsb].
  rewrite !Hk by (unfold known_names; repeat constructor).
  unfold known_names in Hname.
  repeat (apply elem_of_cons in Hname as [->|Hname]);
    [..|inversion Hname]; cbn; eauto;
    destruct (startswith "41" (platform_release m)); eauto.
Qed.

Lemma select_pkg_cmd_none distro :
  (forall k, k ∈ known_names -> mentions distro k = false) ->
  select_pkg_cmd m distro = None.
Proof.
  intros Hk. unfold mentions in Hk. unfold select_pkg_cmd. cbn [existsb].
  rewrite !Hk by (unfold known_names; repeat constructor). reflexivity.
Qed.

Lemma get_linux_distro_returns w :
  exists d, get_linux_distro m w = (Ret d, log (EvLsbRelease (lsb_release m w)) w).
Proof.
  unfold get_linux_distro.
  destruct (lsb_release m w) as [[|?|?] ?|]; try destruct (read_lines _ _); eauto.
Qed.

Lemma detect_os_returns w :
  exists d w',
    detect_os m w = (Ret (classify m, d), w')
    /\ ((platform_system m =? "Linux")%string = false -> d = Some "N/A"%string).
Proof.
  unfold detect_os, bind at 1.
  destruct (platform_system m =? "Linux")%string.
  - destruct (get_linux_distro_returns w) as [d ->].
    eexists d, _. split; [reflexivity|discriminate].
  - eexists (Some "N/A"%string), _. split; reflexivity.
Qed.

Lemma windows_exit w :
  classify m = Windows -> fst (install_geant4 m w) = Exit 1.
Proof.
  intros Hwin. unfold install_geant4, bind at 1.
  destruct (detect_os_returns w) as (d & w' & -> & _).
  rewrite Hwin. reflexivity.
Qed.

Lemma fetch_source_asked tarball url w answer rest :
  is_Some (fs w !! resolve w tarball) -> stdin w = answer :: rest ->
  fetch_source m tarball url w =
    let w1 := tarball_asked tarball answer rest w in
    if (normalized answer =? "r")%string then
      bind (bind (run_command m ("rm -f " +:+ tarball) "Removing existing tarball")
              (fun _ => run_command m ("wget " +:+ url) "Downloading Geant4 Source"))
        (fun _ => run_command m ("tar xzfv " +:+ tarball) "Extracting Source Code") w1
    else if (normalized answer =? "s")%string then
      run_command m ("tar xzfv " +:+ tarball) "Extracting Source Code"
        (log (EvPrint "[INFO] Using existing tarball.") w1)
    else (Exit 0, log (EvPrint "[INFO] Aborting.") w1).
Proof.
  intros Hex Hin. unfold fetch_source, bind, path_exists, print, input.
  rewrite (bool_decide_eq_true_2 _ Hex). cbn [stdin log]. rewrite Hin.
  fold (normalized answer). unfold tarball_asked. cbn zeta.
  destruct (normalized answer =? "r")%string; [reflexivity|].
  destruct (normalized answer =? "s")%string; reflexivity.
Qed.

Lemma prepare_build_dir_asked build_dir w answer rest entry entries :
  fs w !! resolve w build_dir = Some (Dir (entry :: entries)) ->
  stdin w = answer :: rest ->
  prepare_build_dir m build_dir w =
    let w1 := build_asked build_dir answer rest w in
    if (normalized answer =? "c")%string then
      bind (run_command m ("rm -rf " +:+ build_dir) "Clearing build directory")
        (fun _ => makedirs build_dir false) w1
    else if (normalized answer =? "s")%string then
      (Ret tt, log (EvPrint "[INFO] Continuing with existing build dir.") w1)
    else (Exit 0, log (EvPrint "[INFO] Aborting.") w1).
Proof.
  intros Hdir Hin. unfold prepare_build_dir, bind, path_exists, listdir, print, input.
  rewrite bool_decide_eq_true_2 by (rewrite Hdir; eauto).
  rewrite Hdir. cbn [stdin log]. rewrite Hin.
  fold (normalized answer). unfold build_asked. cbn zeta.
  destruct (normalized answer =? "c")%string; [reflexivity|].
  destruct (normalized answer =? "s")%string; reflexivity.
Qed.

End RunFacts.

End SysFacts.

(** ** The Version Resolver *)

Module VersionResolver.
Import PyStr Sys Alpha Spec PyStrFacts SysFacts.
Local Open Scope list_scope.



Section Choice.
Context {X : Type} (m : machine X).
Implicit Types (w : world X).

End Choice.


End VersionResolver.

(** ** The OS/Distro Detector *)

Module Detector.
Import PyStr Sys Alpha Spec PyStrFacts SysFacts.
Local Open Scope list_scope.

(** C2 at a failing input: without [lsb_release] and with a release file
    that has no PRETTY_NAME line, the detector returns [None] where a
    string is promised, and the installer then fails on it. *)
Theorem distro_none_without_pretty_name :
  fst (detect_os (Hosts.ubuntu "") Hosts.minimal_world) = Ret (Linux, None)
  /\ fst (install_packages (Hosts.ubuntu "") None Hosts.minimal_world)
     = Raise AttributeError.
Proof. vm_compute. split; reflexivity. Qed.

End Detector.

(** ** The Dependency Installer *)

Module Installer.
Import PyStr Sys Alpha Spec PyStrFacts SysFacts.
Local Open Scope list_scope.

Section Packages.
Context {X : Type} (m : machine X).
Implicit Types (w : world X).

(** C3: a distro string that mentions exactly one of the known names, in
    any letter case, makes the installer run the one command that stands
    for that name and no other; a string that mentions none makes it
    print the warning and return, with no command run and no exit. *)
Theorem install_packages_by_distro (distro : string) w :
  (forall name,
     name ∈ known_names ->
     (forall k, k ∈ known_names -> mentions distro k = true <-> k = name) ->
     exists cmd,
       template_for name (platform_release m) = Some cmd /\
       install_packages m (Some distro) w
         = run_command m cmd "Installing dependencies" w /\
       commands (new_events w (snd (install_packages m (Some distro) w)))
         = [cmd])
  /\ ((forall k, k ∈ known_names -> mentions distro k = false) ->
      install_packages m (Some distro) w
        = (Ret tt, log (EvPrint unrecognized_warning) w)).
Proof.
  split.
  - intros name Hname Hex.
    destruct (select_pkg_cmd_exactly_one m distro name Hname Hex) as [Hsel [cmd Hcmd]].
    exists cmd. split; [assumption|]. unfold install_packages.
    rewrite Hsel, Hcmd. split; [reflexivity|].
    apply commands_run_command. exists []. now rewrite app_nil_r.
  - intros Hnone. unfold install_packages.
    now rewrite (select_pkg_cmd_none m distro Hnone).
Qed.
End Packages.

(** Ubuntu selects the apt command; Gentoo selects none. *)
Lemma install_packages_by_distro_witness :
  commands (new_events (Hosts.ubuntu_world [])
              (snd (install_packages (Hosts.ubuntu "") (Some "Ubuntu 22.04.3 LTS"%string)
                      (Hosts.ubuntu_world []))))
  = [apt_cmd]
  /\ install_packages (Hosts.ubuntu "") (Some "Gentoo Linux"%string) (Hosts.ubuntu_world [])
     = (Ret tt, log (EvPrint unrecognized_warning) (Hosts.ubuntu_world [])).
Proof.
  destruct (install_packages_by_distro (Hosts.ubuntu "")
              "Ubuntu 22.04.3 LTS" (Hosts.ubuntu_world [])) as [Hone _].
  destruct (install_packages_by_distro (Hosts.ubuntu "")
              "Gentoo Linux" (Hosts.ubuntu_world [])) as [_ Hnone].
  split.
  - destruct (Hone "ubuntu"%string) as (cmd & Hcmd & _ & Hrun).
    + unfold known_names. repeat constructor.
    + intros k Hk. unfold known_names in Hk.
      repeat (apply elem_of_cons in Hk as [->|Hk]); [..|inversion Hk];
        vm_compute; split; congruence.
    + injection Hcmd as <-. exact Hrun.
  - apply Hnone. intros k Hk. unfold known_names in Hk.
    repeat (apply elem_of_cons in Hk as [->|Hk]); [..|inversion Hk];
      vm_compute; reflexivity.
Defined.

End Installer.

(** ** Exit status of the process *)

Module ExitCodes.
Import PyStr Sys Alpha Spec PyStrFacts SysFacts.
Local Open Scope list_scope.

Section Codes.
Context {X : Type} (m : machine X).
Implicit Types (w : world X).

(** C4 (amended): the exit status is 0 when the script returns and when a
    three-way prompt gets an answer other than the two that continue; it
    is 1 when a command run through [run_command] returns nonzero, when
    the tags page holds no version, and when the OS type is Windows. *)
Theorem exit_codes w :
  let code := fst (main m w) in
  let evs := new_events w (snd (main m w)) in
  (fst (install_geant4 m w) = Ret tt -> code = 0)
  /\ (forall answer,
        EvInput tarball_prompt (Some answer) ∈ evs ->
        normalized answer <> "r"%string -> normalized answer <> "s"%string ->
        code = 0)
  /\ (forall answer,
        EvInput build_prompt (Some answer) ∈ evs ->
        normalized answer <> "c"%string -> normalized answer <> "s"%string ->
        code = 0)
  /\ (forall cmd status, EvShell cmd status ∈ evs -> status <> 0 -> code = 1)
  /\ (forall url text,
        EvHttpGet url (Some text) ∈ evs -> findall text = [] -> code = 1)
  /\ (classify m = Windows -> code = 1).
Proof.
  pose proof (windows_exit m w) as Hwin.
  destruct (sat_install_geant4 m w) as (evs & T & F).
  unfold main. destruct (install_geant4 m w) as [o w'].
  cbn [fst snd] in *. rewrite (new_events_app _ _ _ T).
  assert (Hv : forall e c, e ∈ evs -> verdict e = Some c -> exit_code o = c).
  { intros e c Hin He. now rewrite (F e c Hin He). }
  repeat split.
  - now intros ->.
  - intros answer Hin Hr Hs. apply (Hv _ _ Hin). unfold verdict.
    rewrite String.eqb_refl.
    destruct (String.eqb_spec (normalized answer) "r"); [contradiction|].
    destruct (String.eqb_spec (normalized answer) "s"); [contradiction|].
    reflexivity.
  - intros answer Hin Hc Hs. apply (Hv _ _ Hin). unfold verdict.
    replace (build_prompt =? tarball_prompt)%string with false by reflexivity.
    rewrite String.eqb_refl.
    destruct (String.eqb_spec (normalized answer) "c"); [contradiction|].
    destruct (String.eqb_spec (normalized answer) "s"); [contradiction|].
    reflexivity.
  - intros cmd st Hin Hst. apply (Hv _ _ Hin). simpl.
    destruct (Z.eqb_spec st 0); [contradiction|reflexivity].
  - intros url text Hin Hnone. apply (Hv _ _ Hin). simpl. now rewrite Hnone.
  - intros Hnt. now rewrite (Hwin Hnt).
Qed.
End Codes.

(** C4 as stated fails: [lsb_release] is an external subprocess, it
    returns 1 here, and the run still ends with status 0. *)
Lemma lsb_release_failure_not_fatal :
  let r := main (Hosts.ubuntu "v11.2.2 v11.2.1")
             (Hosts.ubuntu_world ["1"; ""; ""; "4"]%string) in
  fst r = 0
  /\ trace (snd r) !! 0%nat = Some (EvLsbRelease (Completed 1 ""))
  /\ length (commands (trace (snd r))) = 7%nat.
Proof. vm_compute. repeat split; reflexivity. Qed.

End ExitCodes.

(** ** The Source Fetcher *)

Module SourceFetcher.
Import PyStr Sys Alpha Spec PyStrFacts SysFacts.
Local Open Scope list_scope.

Section Tarball.
Context {X : Type} (m : machine X).
Implicit Types (w : world X).

(** C5: with the tarball present, the answer S makes the fetcher run the
    extraction alone, on the file system as it was, and no download; the
    answer A ends the process with status 0 whatever would follow, with
    no command run. *)
Theorem existing_tarball_skip_or_abort tarball url w answer rest :
  is_Some (fs w !! resolve w tarball) -> stdin w = answer :: rest ->
  let asked := tarball_asked tarball answer rest w in
  let kept := log (EvPrint "[INFO] Using existing tarball.") asked in
  (normalized answer = "s"%string ->
     fetch_source m tarball url w
       = run_command m ("tar xzfv " +:+ tarball) "Extracting Source Code" kept
     /\ fs kept = fs w
     /\ commands (new_events w (snd (fetch_source m tarball url w)))
        = ["tar xzfv " +:+ tarball])
  /\ (normalized answer = "a"%string ->
      forall k : unit -> M X unit,
        bind (fetch_source m tarball url) k w
          = (Exit 0, log (EvPrint "[INFO] Aborting.") asked)
        /\ exit_code (fst (bind (fetch_source m tarball url) k w)) = 0
        /\ commands (new_events w (snd (bind (fetch_source m tarball url) k w)))
           = []).
Proof.
  intros Hex Hin asked kept. split.
  - intros Hs. rewrite (fetch_source_asked m _ _ _ _ _ Hex Hin), Hs. cbn zeta.
    cbn [String.eqb Ascii.eqb Bool.eqb]. fold asked. fold kept.
    split; [reflexivity|]. split; [reflexivity|].
    apply commands_run_command.
    exists [EvPrint ("[WARNING] " +:+ tarball +:+ " already exists.");
            EvInput tarball_prompt (Some answer);
            EvPrint "[INFO] Using existing tarball."].
    split; [|reflexivity].
    unfold kept, asked, tarball_asked. simpl. now rewrite <- !app_assoc.
  - intros Ha k.
    assert (E : bind (fetch_source m tarball url) k w
                = (Exit 0, log (EvPrint "[INFO] Aborting.") asked)).
    { unfold bind. rewrite (fetch_source_asked m _ _ _ _ _ Hex Hin), Ha.
      reflexivity. }
    rewrite E. split; [reflexivity|]. split; [reflexivity|]. cbn [snd].
    rewrite (new_events_app _ _
      [EvPrint ("[WARNING] " +:+ tarball +:+ " already exists.");
       EvInput tarball_prompt (Some answer); EvPrint "[INFO] Aborting."]);
      [reflexivity|].
    unfold asked, tarball_asked. simpl. now rewrite <- !app_assoc.
Qed.
End Tarball.

(** The tarball of 11.2.2 is there; one run answers S, another A. *)
Lemma existing_tarball_skip_or_abort_witness :
  commands (new_events (Hosts.geant4_world [" S "%string])
              (snd (fetch_source (Hosts.ubuntu "v11.2.2")
                      "geant4-v11.2.2.tar.gz" (tar_url "11.2.2")
                      (Hosts.geant4_world [" S "%string]))))
  = ["tar xzfv geant4-v11.2.2.tar.gz"%string]
  /\ exit_code
       (fst (bind (fetch_source (Hosts.ubuntu "v11.2.2")
                     "geant4-v11.2.2.tar.gz" (tar_url "11.2.2"))
               (fun _ => prepare_build_dir (Hosts.ubuntu "v11.2.2")
                           "geant4-v11.2.2-build")
               (Hosts.geant4_world ["A"%string]))) = 0.
Proof.
  split.
  - destruct (existing_tarball_skip_or_abort
                (Hosts.ubuntu "v11.2.2") "geant4-v11.2.2.tar.gz"
                (tar_url "11.2.2") (Hosts.geant4_world [" S "%string])
                " S " []) as [Hs _].
    + eexists. vm_compute. reflexivity.
    + reflexivity.
    + apply Hs. reflexivity.
  - destruct (existing_tarball_skip_or_abort
                (Hosts.ubuntu "v11.2.2") "geant4-v11.2.2.tar.gz"
                (tar_url "11.2.2") (Hosts.geant4_world ["A"%string])
                "A" []) as [_ Ha].
    + eexists. vm_compute. reflexivity.
    + reflexivity.
    + apply Ha. reflexivity.
Defined.

End SourceFetcher.

(** ** The Build Director *)

Module BuildDirector.
Import PyStr Sys Alpha Spec PyStrFacts SysFacts.
Local Open Scope list_scope.

Section BuildDir.
Context {X : Type} (m : machine X).
Implicit Types (w : world X).

Ltac events_done :=
  unfold new_events; cbn [trace snd fst log set_fs take_line build_asked];
  rewrite <- ?app_assoc; rewrite drop_app_length; reflexivity.

(** C6: with a build directory that is not empty and the answer C, the
    one command run is the removal; when the script then enters the
    directory, the removal had succeeded and left no such path, and the
    directory is the empty one just created. *)
Theorem clear_build_dir build_dir w answer rest entry entries :
  fs w !! resolve w build_dir = Some (Dir (entry :: entries)) ->
  stdin w = answer :: rest ->
  normalized answer = "c"%string ->
  let before_rm :=
    log (EvPrint (info_msg "Clearing build directory"))
      (build_asked build_dir answer rest w) in
  let rm := shell m ("rm -rf " +:+ build_dir) before_rm in
  let r := bind (prepare_build_dir m build_dir) (fun _ => chdir build_dir) w in
  commands (new_events w (snd r)) = ["rm -rf " +:+ build_dir]
  /\ fs before_rm = fs w
  /\ (fst r = Ret tt ->
      fst rm = 0
      /\ fs (snd rm) !! resolve w build_dir = None
      /\ fs (snd r) !! resolve w build_dir = Some (Dir [])
      /\ cwd (snd r) = resolve w build_dir)
  /\ (fst rm <> 0 -> fst r = Exit 1 /\ cwd (snd r) = cwd w).
Proof.
  intros Hdir Hin Hc before_rm rm r.
  destruct (run_command_spec m ("rm -rf " +:+ build_dir) "Clearing build directory"
              (build_asked build_dir answer rest w)) as (st & w' & Hsh & Hrc).
  fold before_rm in Hsh. fold rm in Hsh.
  assert (Hr : r = bind (bind (run_command m ("rm -rf " +:+ build_dir)
                                 "Clearing build directory")
                           (fun _ => makedirs build_dir false))
                     (fun _ => chdir build_dir)
                     (build_asked build_dir answer rest w)).
  { unfold r, bind at 1. rewrite (prepare_build_dir_asked m _ _ _ _ _ _ Hdir Hin), Hc.
    reflexivity. }
  rewrite Hr, Hsh. unfold bind. rewrite Hrc. cbn zeta. cbn [fst snd].
  split; [|split; [reflexivity|]].
  - destruct (st =? 0).
    + unfold makedirs, chdir, resolve. cbn [fs cwd log set_fs].
      destruct (fs w' !! _) as [[|]|] eqn:E; cbn [fs cwd log set_fs];
        rewrite ?lookup_insert_eq; events_done.
    + events_done.
  - destruct (Z.eqb_spec st 0) as [->|Hst].
    + unfold makedirs, chdir, resolve. cbn [fs cwd log set_fs build_asked take_line].
      destruct (fs w' !! _) as [[|]|] eqn:E; cbn [fs cwd log set_fs];
        rewrite ?lookup_insert_eq; cbn [fst snd fs cwd];
        (split; [intros; try discriminate|intros; congruence]).
      repeat split; try assumption. apply lookup_insert_eq.
    + split; [discriminate|]. intros _. split; reflexivity.
Qed.
End BuildDir.

(** Clearing a build directory that holds one file. *)
Lemma clear_build_dir_witness :
  let r := bind (prepare_build_dir (Hosts.cleaning "v11.2.2") "geant4-v11.2.2-build")
             (fun _ => chdir "geant4-v11.2.2-build")
             (Hosts.geant4_world ["c"%string]) in
  fst r = Ret tt
  /\ fs (snd r) !! "/home/u/Gent/Geant4/geant4-v11.2.2-build"%string = Some (Dir [])
  /\ cwd (snd r) = "/home/u/Gent/Geant4/geant4-v11.2.2-build"%string.
Proof.
  intros r.
  assert (Hr : fst r = Ret tt) by (vm_compute; reflexivity).
  destruct (clear_build_dir (Hosts.cleaning "v11.2.2")
              "geant4-v11.2.2-build" (Hosts.geant4_world ["c"%string])
              "c" [] "CMakeCache.txt" []) as (_ & _ & Hret & _).
  - vm_compute. reflexivity.
  - reflexivity.
  - reflexivity.
  - destruct (Hret Hr) as (_ & _ & Hfs & Hcwd).
    split; [exact Hr|]. split; [exact Hfs | exact Hcwd].
Defined.



End BuildDirector.

(** ** Names derived from the version *)

Module Names.
Import PyStr Sys Alpha Spec PyStrFacts SysFacts.
Local Open Scope list_scope.


End Names.

(** ** The Shell Integration *)

Module ShellIntegration.
Import PyStr Sys Alpha Spec PyStrFacts SysFacts.
Local Open Scope list_scope.

Section Profile.
Context {X : Type} (m : machine X).
Implicit Types (w : world X).

End Profile.


End ShellIntegration.

(** ** More facts about the string primitives *)

Module TextFacts.
Import PyStr Sys Alpha Spec PyStrFacts SysFacts.
Local Open Scope list_scope.







Lemma char_free_app c a b :
  char_free c (a +:+ b) = char_free c a && char_free c b.
Proof.
  induction a as [|x a IH]; [reflexivity|].
  rewrite append_cons. cbn [char_free]. now rewrite IH, andb_assoc.
Qed.


Lemma rstrip_by_app p a b :
  rstrip_by p b <> ""%string -> rstrip_by p (a +:+ b) = a +:+ rstrip_by p b.
Proof.
  intros Hb. induction a as [|c a IH]; [reflexivity|].
  rewrite !append_cons. cbn [rstrip_by]. rewrite IH.
  destruct (a +:+ rstrip_by p b) eqn:E; [|reflexivity].
  destruct a; [contradiction|discriminate].
Qed.

Lemma lstrip_by_free c s :
  char_free c s = true -> lstrip_by (Ascii.eqb c) s = s.
Proof.
  destruct s as [|x s]; [reflexivity|]. cbn [char_free lstrip_by].
  intros [Hx _]%andb_prop. rewrite Ascii.eqb_sym.
  now destruct (Ascii.eqb x c).
Qed.

Lemma rstrip_by_free c s :
  char_free c s = true -> rstrip_by (Ascii.eqb c) s = s.
Proof.
  induction s as [|x s IH]; [reflexivity|]. cbn [char_free rstrip_by].
  intros [Hx Hs]%andb_prop. rewrite (IH Hs). rewrite Ascii.eqb_sym.
  destruct s; [|reflexivity]. now destruct (Ascii.eqb x c).
Qed.

Lemma rstrip_by_free_snoc c s :
  char_free c s = true ->
  rstrip_by (Ascii.eqb c) (s +:+ String c "") = s.
Proof.
  induction s as [|x s IH].
  - intros _. change (rstrip_by (Ascii.eqb c) (String c "") = ""%string).
    cbn [rstrip_by]. now rewrite Ascii.eqb_refl.
  - cbn [char_free]. intros [Hx Hs]%andb_prop. rewrite append_cons.
    cbn [rstrip_by]. rewrite (IH Hs). rewrite Ascii.eqb_sym.
    destruct s; [|reflexivity]. now destruct (Ascii.eqb x c).
Qed.

Lemma split_free c s : char_free c s = true -> split c s = [s].
Proof.
  induction s as [|x s IH]; [reflexivity|]. cbn [char_free split].
  intros [Hx Hs]%andb_prop. rewrite (IH Hs). now destruct (Ascii.eqb x c).
Qed.

Lemma split_free_app c a b :
  char_free c a = true -> split c (a +:+ String c b) = a :: split c b.
Proof.
  induction a as [|x a IH]; cbn [char_free].
  - intros _. change (split c (String c b) = ""%string :: split c b).
    cbn [split]. now rewrite Ascii.eqb_refl.
  - intros [Hx Ha]%andb_prop. rewrite append_cons. cbn [split].
    rewrite (IH Ha). now destruct (Ascii.eqb x c).
Qed.

Lemma strip_pretty_name_line value :
  strip (pretty_name_line value) = "PRETTY_NAME=" +:+ dq +:+ value +:+ dq.
Proof.
  unfold strip, strip_by, pretty_name_line.
  change (lstrip_by is_space ("PRETTY_NAME=" +:+ dq +:+ value +:+ dq +:+ nl))
    with ("PRETTY_NAME=" +:+ dq +:+ value +:+ dq +:+ nl).
  rewrite <- (append_assoc "PRETTY_NAME=" dq), <- (append_assoc _ value).
  rewrite rstrip_by_app by (vm_compute; discriminate).
  change (rstrip_by is_space (dq +:+ nl)) with dq.
  now rewrite !append_assoc.
Qed.

Lemma strip_quotes_quoted value :
  char_free dquote value = true -> strip_quotes (dq +:+ value +:+ dq) = value.
Proof.
  intros Hq. unfold strip_quotes, strip_by.
  change (dq +:+ value +:+ dq) with (String dquote (value +:+ dq)).
  cbn [lstrip_by]. rewrite Ascii.eqb_refl. destruct value as [|x v].
  - change ("" +:+ dq) with (String dquote "").
    cbn [lstrip_by rstrip_by]. now rewrite Ascii.eqb_refl.
  - change (String x v +:+ dq) with (String x (v +:+ dq)). cbn [lstrip_by].
    pose proof Hq as Hq'. cbn [char_free] in Hq'. apply andb_prop in Hq' as [Hx _].
    rewrite Ascii.eqb_sym. destruct (Ascii.eqb x dquote); [discriminate|].
    change (String x (v +:+ dq)) with (String x v +:+ String dquote "").
    now apply rstrip_by_free_snoc.
Qed.

Lemma contains_slash s : contains "/" s = negb (char_free "/" s).
Proof.
  induction s as [|x s IH]; [reflexivity|].
  cbn [contains char_free String.prefix]. rewrite IH.
  destruct (ascii_dec "/" x) as [<-|Hne].
  - now destruct s.
  - destruct (Ascii.eqb_spec x "/"); [congruence|reflexivity].
Qed.

Lemma upto_last_slash_app a name :
  char_free "/" name = true ->
  upto_last_slash (a +:+ String "/" name) = a +:+ "/".
Proof.
  intros Hn. induction a as [|x a IH].
  - change (upto_last_slash (String "/" name) = "/"%string).
    cbn [upto_last_slash]. rewrite contains_slash, Hn. reflexivity.
  - rewrite !append_cons. cbn [upto_last_slash].
    rewrite contains_slash, char_free_app. cbn [char_free].
    rewrite andb_false_r. cbn [negb]. now rewrite IH.
Qed.

Lemma rstrip_slash_dir dir :
  dir <> ""%string -> ends_with_slash dir = false ->
  rstrip_by (Ascii.eqb "/") (dir +:+ "/") = dir.
Proof.
  induction dir as [|x r IH]; [congruence|]. intros _ He.
  rewrite append_cons. cbn [rstrip_by]. destruct r as [|y r].
  - change ("" +:+ "/") with (String "/" ""). cbn [rstrip_by].
    cbn [ends_with_slash] in He. rewrite Ascii.eqb_refl.
    rewrite (Ascii.eqb_sym "/" x), He. reflexivity.
  - rewrite ends_with_slash_cons in He by discriminate.
    rewrite IH by (discriminate || assumption). reflexivity.
Qed.

Lemma lstrip_empty_rstrip p s :
  lstrip_by p s = ""%string -> rstrip_by p s = ""%string.
Proof.
  induction s as [|x s IH]; [reflexivity|]. cbn [lstrip_by rstrip_by].
  destruct (p x) eqn:E; [|discriminate]. intros H. now rewrite (IH H).
Qed.





End TextFacts.

(** ** More facts about the stages *)

Module StepFacts.
Import PyStr Sys Alpha Spec PyStrFacts SysFacts.
Local Open Scope list_scope.
Import TextFacts.

Section Prompts.
Context {X : Type}.
Implicit Types (w : world X).





End Prompts.

Section Choices.
Context {X : Type} (m : machine X).
Implicit Types (w : world X).

Lemma nth_error_take {A} (l : list A) n i v :
  nth_error l i = Some v -> (i < n)%nat -> v ∈ take n l.
Proof.
  revert n i; induction l as [|x l IH]; intros [|n] [|i] H Hi; simpl in *;
    try discriminate; try lia.
  - injection H as ->. constructor.
  - constructor. apply (IH n i); [assumption|lia].
Qed.

Lemma get_latest_menu w text v vs :
  http_get m tags_url w = Some text ->
  sorted_versions (set_order m (findall text)) = Some (v :: vs) ->
  exists evs,
    Forall is_print evs /\
    get_latest_geant4_version m w =
      while_input choice_prompt (choice_body (v :: vs))
        (World (fs w) (cwd w) (stdin w)
           (trace w ++ EvHttpGet tags_url (Some text) :: evs) (ext w)).
Proof.
  intros Hget Hvs. unfold get_latest_geant4_version.
  rewrite bind_get_text, Hget, Hvs. unfold bind, print.
  destruct (print_menu_spec (take 5 (v :: vs)) 0
              (log (EvPrint "Available Geant4 versions:")
                 (log (EvHttpGet tags_url (Some text)) w))) as (evs & -> & HF).
  exists (EvPrint "Available Geant4 versions:" :: evs). split.
  - constructor; [exact I|assumption].
  - cbn [fs cwd stdin trace ext log]. rewrite <- !app_assoc. reflexivity.
Qed.



Lemma choice_loop_returns versions v lines : forall w w',
  input_loop choice_prompt (choice_body versions) lines w = (Ret v, w') ->
  v ∈ take 5 versions /\ fs w' = fs w /\ cwd w' = cwd w /\ ext w' = ext w.
Proof.
  induction lines as [|l lines IH]; intros w w' H; cbn [input_loop] in H;
    [discriminate|].
  unfold choice_body at 1 in H.
  assert (Hnone : forall w0 : world X,
            bind (print invalid_input) (fun _ => ret None) w0
            = (Ret (@None string), log (EvPrint invalid_input) w0))
    by reflexivity.
  destruct (int l) as [c|].
  - destruct (Z.leb_spec 1 c), (Z.leb_spec c 5); cbn [andb] in H;
      try (rewrite Hnone in H; apply IH in H; exact H).
    destruct (nth_error versions (Z.to_nat (c - 1))) as [v'|] eqn:E;
      [|discriminate].
    injection H as <- <-. split; [|repeat split].
    apply (nth_error_take _ _ _ _ E). lia.
  - rewrite Hnone in H. apply IH in H. exact H.
Qed.

End Choices.

Section Plans.
Context {X : Type} (m : machine X).
Implicit Types (w : world X).

Lemma shell_log_app a b : shell_log (a ++ b) = shell_log a ++ shell_log b.
Proof. apply flat_map_app. Qed.

Lemma shell_log_new_events w wf evs :
  trace wf = trace w ++ evs -> shell_log (new_events w wf) = shell_log evs.
Proof. intros H. now rewrite (new_events_app _ _ _ H). Qed.

Lemma run_command_cases cmd desc w :
  exists st w' evs,
    trace w' = trace w ++ evs /\ shell_log evs = [(cmd, st)]
    /\ cwd w' = cwd w
    /\ ((st = 0 /\ run_command m cmd desc w = (Ret tt, w'))
        \/ (st <> 0 /\ run_command m cmd desc w = (Exit 1, w'))).
Proof.
  destruct (run_command_spec m cmd desc w) as (st & w' & Hsh & ->).
  cbn zeta. destruct (Z.eqb_spec st 0) as [->|Hst].
  - eexists 0, _, [EvPrint (info_msg desc); EvShell cmd 0; EvPrint (success_msg desc)].
    split; [|split; [reflexivity|split; [|left; split; reflexivity]]].
    + cbn [trace log]. now rewrite <- app_assoc.
    + reflexivity.
  - eexists st, _, [EvPrint (info_msg desc); EvShell cmd st;
                    EvPrint (error_msg desc cmd st)].
    split; [|split; [reflexivity|split; [|right; split; [assumption|reflexivity]]]].
    + cbn [trace log]. now rewrite <- app_assoc.
    + reflexivity.
Qed.







Lemma prepare_build_dir_other build_dir w :
  match fs w !! resolve w build_dir with
  | None =>
      prepare_build_dir m build_dir w
      = (Ret tt, set_fs (<[resolve w build_dir := Dir []]> (fs w)) w)
  | Some (File _ _) =>
      prepare_build_dir m build_dir w = (Raise NotADirectoryError, w)
  | Some (Dir []) => prepare_build_dir m build_dir w = (Ret tt, w)
  | Some (Dir (_ :: _)) =>
      stdin w = [] ->
      prepare_build_dir m build_dir w
      = (Raise EOFError,
         log (EvInput build_prompt None)
           (log (EvPrint ("[WARNING] Build dir '" +:+ build_dir +:+ "' not empty.")) w))
  end.
Proof.
  unfold prepare_build_dir, bind, path_exists, listdir, makedirs, print, input.
  destruct (fs w !! resolve w build_dir) as [[?|[|? ?]]|] eqn:Hl.
  - rewrite bool_decide_eq_true_2 by eauto. cbv beta iota zeta.
    now rewrite Hl.
  - rewrite bool_decide_eq_true_2 by eauto. cbv beta iota zeta.
    now rewrite Hl.
  - rewrite bool_decide_eq_true_2 by eauto. cbv beta iota zeta.
    rewrite Hl. cbn [stdin log]. now intros ->.
  - rewrite bool_decide_eq_false_2 by (intros [? ?]; discriminate).
    cbv beta iota zeta. now rewrite Hl.
Qed.

Lemma detect_os_frame w :
  exists d evs,
    detect_os m w
    = (Ret (classify m, d),
       World (fs w) (cwd w) (stdin w) (trace w ++ evs) (ext w))
    /\ Forall is_probe evs.
Proof.
  unfold detect_os, bind at 1.
  assert (H : exists d pre,
            (if (platform_system m =? "Linux")%string then get_linux_distro m
             else ret (Some "N/A"%string)) w
            = (Ret d, World (fs w) (cwd w) (stdin w) (trace w ++ pre) (ext w))
            /\ Forall is_probe pre).
  { destruct (platform_system m =? "Linux")%string.
    - destruct (get_linux_distro_returns m w) as [d ->].
      exists d, [EvLsbRelease (lsb_release m w)]. split; [reflexivity|].
      repeat constructor.
    - exists (Some "N/A"%string), []. rewrite app_nil_r. destruct w.
      split; [reflexivity|constructor]. }
  destruct H as (d & pre & -> & Hpre).
  unfold bind, print, ret, log. cbn [fs cwd stdin trace ext].
  eexists d, (pre ++ [_; _; _; _]). split.
  - rewrite <- !app_assoc. reflexivity.
  - apply Forall_app. split; [assumption|repeat constructor].
Qed.

End Plans.

Section Returns.
Context {X : Type} (m : machine X).
Implicit Types (w : world X).

Lemma grows_by_refl w : grows_by w w [].
Proof. exists []. now rewrite app_nil_r. Qed.












End Returns.

End StepFacts.

(** ** The end of a run, stage by stage *)

Module HaltingFacts.
Import PyStr Sys Alpha Spec PyStrFacts SysFacts.
Local Open Scope list_scope.

Section Events.
Context {X : Type}.
Implicit Types (w : world X).

Lemma halting_nil {A} (o : outcome A) : halting [] o.
Proof. intros [|x pre] e post c H; discriminate. Qed.

Lemma halting_cons {A} a l (o : outcome A) :
  verdict a = None -> halting l o -> halting (a :: l) o.
Proof.
  intros Ha Hl [|x pre] e post c H Hv; injection H as -> ->.
  - congruence.
  - eapply Hl; eauto.
Qed.

Lemma halting_head {A} a l (o : outcome A) :
  (forall c, verdict a = Some c -> o = Exit c /\ Forall is_print l) ->
  halting l o -> halting (a :: l) o.
Proof.
  intros Ha Hl [|x pre] e post c H Hv; injection H as -> ->.
  - now apply Ha.
  - eapply Hl; eauto.
Qed.

Lemma halting_app {A} l1 l2 (o : outcome A) :
  Forall (fun e => verdict e = None) l1 -> halting l2 o -> halting (l1 ++ l2) o.
Proof.
  induction 1 as [|a l1 Ha _ IH]; intros H2; [exact H2|].
  apply halting_cons; auto.
Qed.

Lemma halting_harmless {A} evs (o : outcome A) :
  Forall (fun e => verdict e = None) evs -> halting evs o.
Proof.
  intros H. rewrite <- (app_nil_r evs). apply halting_app; [assumption|].
  apply halting_nil.
Qed.

Lemma halting_ret_quiet {A} evs (a : A) :
  halting evs (Ret a) -> Forall (fun e => verdict e = None) evs.
Proof.
  intros H. apply Forall_forall. intros e He.
  apply list_elem_of_split in He as (pre & post & ->).
  destruct (verdict e) as [c|] eqn:E; [|reflexivity].
  destruct (H pre e post c eq_refl E) as [? _]. discriminate.
Qed.

Lemma is_print_harmless evs :
  Forall is_print evs -> Forall (fun e => verdict e = None) evs.
Proof.
  intros H0. eapply Forall_impl; [exact H0|]. intros [] H; try destruct H. reflexivity.
Qed.

Lemma hsat_quiet {A} (c : M X A) :
  (forall w, trace (snd (c w)) = trace w) -> sat halting c.
Proof.
  intros H w. exists []. rewrite app_nil_r. split; [apply H|apply halting_nil].
Qed.

Lemma hsat_ret {A} (a : A) : sat halting (ret (X:=X) a).
Proof. now apply hsat_quiet. Qed.

Lemma hsat_exit {A} c : sat halting (exit (X:=X) (A:=A) c).
Proof. now apply hsat_quiet. Qed.

Lemma hsat_raise {A} e : sat halting (raise (X:=X) (A:=A) e).
Proof. now apply hsat_quiet. Qed.

Lemma hsat_print t : sat halting (print (X:=X) t).
Proof.
  intros w. exists [EvPrint t]. split; [reflexivity|].
  apply halting_harmless. repeat constructor.
Qed.

Lemma hsat_input p :
  (p =? tarball_prompt)%string = false -> (p =? build_prompt)%string = false ->
  sat halting (input (X:=X) p).
Proof.
  intros H1 H2 w. unfold input. destruct (stdin w) as [|l r]; simpl.
  - exists [EvInput p None]. split; [reflexivity|].
    apply halting_harmless. repeat constructor.
  - exists [EvInput p (Some l)]. split; [reflexivity|]. apply halting_harmless.
    repeat constructor. simpl. now rewrite H1, H2.
Qed.

Lemma hsat_bind {A B} (c : M X A) (f : A -> M X B) :
  sat halting c -> (forall a, sat halting (f a)) -> sat halting (bind c f).
Proof.
  intros Hc Hf w. unfold bind. destruct (Hc w) as (evs1 & T1 & F1).
  destruct (c w) as [[a|code|e] w1]; simpl in *.
  - destruct (Hf a w1) as (evs2 & T2 & F2). exists (evs1 ++ evs2). split.
    + now rewrite T2, T1, app_assoc.
    + apply halting_app; [|assumption]. eapply halting_ret_quiet; eassumption.
  - exists evs1. split; [assumption|]. intros pre e post c' Hd Hv.
    destruct (F1 pre e post c' Hd Hv) as [Ho Hp]. split; [congruence|assumption].
  - exists evs1. split; [assumption|]. intros pre e' post c' Hd Hv.
    destruct (F1 pre e' post c' Hd Hv) as [Ho Hp]. discriminate.
Qed.

Lemma hsat_path_exists p : sat halting (path_exists (X:=X) p).
Proof. now apply hsat_quiet. Qed.

Lemma hsat_listdir p : sat halting (listdir (X:=X) p).
Proof.
  apply hsat_quiet. intros w. unfold listdir.
  destruct (fs w !! resolve w p) as [[]|]; reflexivity.
Qed.

Lemma hsat_makedirs p b : sat halting (makedirs (X:=X) p b).
Proof.
  apply hsat_quiet. intros w. unfold makedirs.
  destruct (fs w !! resolve w p) as [[]|], b; reflexivity.
Qed.

Lemma hsat_chdir p : sat halting (chdir (X:=X) p).
Proof.
  apply hsat_quiet. intros w. unfold chdir.
  destruct (fs w !! resolve w p) as [[]|]; reflexivity.
Qed.

Lemma hsat_append_file p t : sat halting (append_file (X:=X) p t).
Proof.
  apply hsat_quiet. intros w. unfold append_file.
  destruct (fs w !! resolve w p) as [[[] ?|]|]; reflexivity.
Qed.

Lemma hsat_write_temp (m : machine X) t : sat halting (write_temp m t).
Proof.
  apply hsat_quiet. intros w. unfold write_temp.
  destruct (mktemp m w); reflexivity.
Qed.

Lemma hsat_while_input {A} p (body : string -> M X (option A)) :
  (p =? tarball_prompt)%string = false -> (p =? build_prompt)%string = false ->
  (forall l, sat halting (body l)) -> sat halting (while_input p body).
Proof.
  intros H1 H2 Hb w. unfold while_input. generalize (stdin w) as lines.
  intros lines; revert w; induction lines as [|l rest IH]; intros w; simpl.
  - exists [EvInput p None]. split; [reflexivity|].
    apply halting_harmless. repeat constructor.
  - set (w1 := log (EvInput p (Some l)) (take_line rest w)).
    destruct (Hb l w1) as (evs1 & T1 & F1).
    assert (Hp : verdict (EvInput p (Some l)) = None) by (simpl; now rewrite H1, H2).
    assert (T1' : trace (snd (body l w1)) = trace w ++ EvInput p (Some l) :: evs1).
    { rewrite T1. unfold w1. simpl. now rewrite <- app_assoc. }
    destruct (body l w1) as [[[a|]|code|e] w2]; simpl in T1', F1 |- *.
    + exists (EvInput p (Some l) :: evs1). split; [assumption|].
      apply halting_cons; [assumption|]. apply halting_harmless.
      eapply halting_ret_quiet; eassumption.
    + destruct (IH w2) as (evs2 & T2 & F2).
      exists (EvInput p (Some l) :: evs1 ++ evs2). split.
      * rewrite T2, T1'. now rewrite <- app_assoc.
      * apply halting_cons; [assumption|]. apply halting_app; [|assumption].
        eapply halting_ret_quiet; eassumption.
    + exists (EvInput p (Some l) :: evs1). split; [assumption|].
      apply halting_cons; [assumption|]. intros pre e post c Hd Hv.
      destruct (F1 pre e post c Hd Hv) as [Ho ?]. split; [congruence|assumption].
    + exists (EvInput p (Some l) :: evs1). split; [assumption|].
      apply halting_cons; [assumption|]. intros pre e' post c Hd Hv.
      destruct (F1 pre e' post c Hd Hv) as [Ho ?]. discriminate.
Qed.

Lemma hsat_run_command (m : machine X) cmd desc : sat halting (run_command m cmd desc).
Proof.
  intros w. destruct (run_command_spec m cmd desc w) as (st & w' & _ & ->).
  cbn zeta. destruct (Z.eqb_spec st 0) as [->|Hst]; cbn [fst snd trace log].
  - exists [EvPrint (info_msg desc); EvShell cmd 0; EvPrint (success_msg desc)].
    split; [now rewrite <- app_assoc|]. apply halting_harmless. repeat constructor.
  - exists [EvPrint (info_msg desc); EvShell cmd st; EvPrint (error_msg desc cmd st)].
    split; [now rewrite <- app_assoc|].
    apply halting_cons; [reflexivity|]. apply halting_head.
    + intros c Hv. simpl in Hv. destruct (Z.eqb_spec st 0); [contradiction|].
      injection Hv as <-. split; [reflexivity|repeat constructor].
    + apply halting_harmless. repeat constructor.
Qed.

Lemma hsat_input_choice {A} p (f : string -> M X A) :
  (forall l, sat halting (f l)) ->
  (forall l c, verdict (EvInput p (Some l)) = Some c ->
               forall w, exists t, f l w = (Exit c, log (EvPrint t) w)) ->
  sat halting (bind (input p) f).
Proof.
  intros Hf Hc w. unfold bind, input. destruct (stdin w) as [|l r]; simpl.
  - exists [EvInput p None]. split; [reflexivity|].
    apply halting_harmless. repeat constructor.
  - set (w1 := log _ _). destruct (Hf l w1) as (evs & T & F).
    exists (EvInput p (Some l) :: evs). split.
    { rewrite T. subst w1. simpl. now rewrite <- app_assoc. }
    apply halting_head; [|assumption]. intros c Hv.
    destruct (Hc l c Hv w1) as [t E]. rewrite E in T |- *. cbn [fst snd trace log] in *.
    split; [reflexivity|]. apply app_inv_head in T. subst evs. repeat constructor.
Qed.

Lemma hsat_after_event {A} (e : event) (c : M X A) w :
  sat halting c ->
  (forall code, verdict e = Some code ->
                exists t, c (log e w) = (Exit code, log (EvPrint t) (log e w))) ->
  exists evs, trace (snd (c (log e w))) = trace w ++ evs
              /\ halting evs (fst (c (log e w))).
Proof.
  intros Hc He. destruct (Hc (log e w)) as (evs & T & F).
  exists (e :: evs). split; [rewrite T; simpl; now rewrite <- app_assoc|].
  apply halting_head; [|assumption]. intros code Hv.
  destruct (He code Hv) as [t E]. rewrite E in T |- *. cbn [fst snd trace log] in *.
  split; [reflexivity|]. apply app_inv_head in T. subst evs. repeat constructor.
Qed.

End Events.

Section Stages.
Context {X : Type} (m : machine X).
Implicit Types (w : world X).

Ltac hsat_step :=
  first [ apply hsat_ret | apply hsat_exit | apply hsat_raise | apply hsat_print
        | apply hsat_path_exists | apply hsat_listdir | apply hsat_makedirs
        | apply hsat_chdir | apply hsat_append_file | apply hsat_write_temp
        | apply hsat_run_command
        | apply hsat_input; reflexivity
        | apply hsat_while_input; [reflexivity | reflexivity | intros ?]
        | apply hsat_bind; [ | intros ? ]
        | match goal with
          | |- sat _ (if ?b then _ else _) => destruct b
          | |- sat _ (match ?x with _ => _ end) => destruct x
          end ].
Ltac hsat_auto := repeat hsat_step.

Lemma hsat_get_cpu_cores : sat halting (get_cpu_cores (X:=X)).
Proof. unfold get_cpu_cores. hsat_auto. Qed.

Lemma hsat_get_linux_distro : sat halting (get_linux_distro m).
Proof.
  intros w. destruct (get_linux_distro_returns m w) as [d ->].
  exists [EvLsbRelease (lsb_release m w)]. split; [reflexivity|].
  apply halting_harmless. repeat constructor.
Qed.

Lemma hsat_detect_os : sat halting (detect_os m).
Proof.
  unfold detect_os. apply hsat_bind.
  - destruct (_ =? _)%string; [apply hsat_get_linux_distro | apply hsat_ret].
  - intros d. hsat_auto.
Qed.

Lemma hsat_print_menu i vers : sat halting (print_menu (X:=X) i vers).
Proof. revert i; induction vers as [|v vers IH]; intros i; simpl; hsat_auto. apply IH. Qed.

Lemma hsat_get_latest_geant4_version : sat halting (get_latest_geant4_version m).
Proof.
  intros w. unfold get_latest_geant4_version. rewrite bind_get_text.
  destruct (http_get m tags_url w) as [text|].
  - apply hsat_after_event.
    + destruct (sorted_versions _) as [[|v vs]|]; hsat_auto. apply hsat_print_menu.
    + simpl. destruct (findall text) eqn:E; [|discriminate]. intros code [= <-].
      rewrite set_order_nil. eexists. reflexivity.
  - exists [EvHttpGet tags_url None]. split; [reflexivity|].
    apply halting_harmless. repeat constructor.
Qed.

Lemma hsat_install_packages d : sat halting (install_packages m d).
Proof. unfold install_packages. hsat_auto. Qed.

Lemma hsat_fetch_source tarball url : sat halting (fetch_source m tarball url).
Proof.
  unfold fetch_source. hsat_step; [hsat_step|]. hsat_step; [|hsat_step].
  destruct a; [|hsat_step]. hsat_step; [hsat_step|].
  apply hsat_input_choice.
  - intros l. hsat_auto.
  - intros l c Hv w. unfold verdict in Hv. rewrite String.eqb_refl in Hv.
    unfold normalized in Hv.
    destruct (_ =? "r")%string; [discriminate|].
    destruct (_ =? "s")%string; [discriminate|].
    injection Hv as <-. eexists. reflexivity.
Qed.

Lemma hsat_prepare_build_dir build_dir : sat halting (prepare_build_dir m build_dir).
Proof.
  unfold prepare_build_dir. hsat_step; [hsat_step|].
  destruct a; [|hsat_step]. hsat_step; [hsat_step|].
  destruct a as [|entry entries]; [hsat_step|]. hsat_step; [hsat_step|].
  apply hsat_input_choice.
  - intros l. hsat_auto.
  - intros l c Hv w. unfold verdict in Hv.
    replace (build_prompt =? tarball_prompt)%string with false in Hv by reflexivity.
    rewrite String.eqb_refl in Hv. unfold normalized in Hv.
    destruct (_ =? "c")%string; [discriminate|].
    destruct (_ =? "s")%string; [discriminate|].
    injection Hv as <-. eexists. reflexivity.
Qed.

Lemma hsat_shell_integration p : sat halting (shell_integration m p).
Proof. unfold shell_integration. hsat_auto. Qed.

Lemma hsat_install_geant4 : sat halting (install_geant4 m).
Proof.
  unfold install_geant4. apply hsat_bind; [apply hsat_detect_os|].
  intros [[] distro].
  - hsat_auto.
  - hsat_step; [hsat_step|]. hsat_step; [hsat_step|].
    apply hsat_bind; [apply hsat_get_latest_geant4_version|intros version].
    apply hsat_bind; [apply hsat_fetch_source|intros _].
    apply hsat_bind; [apply hsat_prepare_build_dir|intros _].
    hsat_step; [hsat_step|]. apply hsat_bind; [apply hsat_install_packages|intros _].
    hsat_step; [hsat_step|]. hsat_step; [hsat_step|]. hsat_step; [hsat_step|].
    hsat_step; [hsat_step|]. hsat_step; [hsat_step|]. hsat_step; [hsat_step|].
    apply hsat_bind; [apply hsat_get_cpu_cores|intros cores].
    hsat_step; [hsat_step|]. hsat_step; [hsat_step|].
    apply hsat_bind; [apply hsat_shell_integration|intros _]. hsat_auto.
  - hsat_step; [hsat_step|]. hsat_step; [hsat_step|].
    apply hsat_bind; [apply hsat_get_latest_geant4_version|intros version].
    apply hsat_bind; [apply hsat_fetch_source|intros _].
    apply hsat_bind; [apply hsat_prepare_build_dir|intros _].
    hsat_step; [hsat_step|]. apply hsat_bind; [apply hsat_install_packages|intros _].
    hsat_step; [hsat_step|]. hsat_step; [hsat_step|]. hsat_step; [hsat_step|].
    hsat_step; [hsat_step|]. hsat_step; [hsat_step|]. hsat_step; [hsat_step|].
    apply hsat_bind; [apply hsat_get_cpu_cores|intros cores].
    hsat_step; [hsat_step|]. hsat_step; [hsat_step|].
    apply hsat_bind; [apply hsat_shell_integration|intros _]. hsat_auto.
Qed.

End Stages.

End HaltingFacts.

(** ** run_command *)

Module RunCommand.
Import PyStr Sys Alpha Spec PyStrFacts SysFacts TextFacts StepFacts.
Local Open Scope list_scope.

Section Outcome.
Context {X : Type} (m : machine X).
Implicit Types (w : world X).

(** X1: [run_command] runs its command exactly once, after the
    announcement; it returns when the status is 0 and exits with status 1
    on every other status.  The file system and the console input are as
    the command left them, the working directory is unchanged. *)
Theorem run_command_outcome cmd desc w :
  let r := run_command m cmd desc w in
  let called := shell m cmd (log (EvPrint (info_msg desc)) w) in
  shell_log (new_events w (snd r)) = [(cmd, fst called)]
  /\ (fst called = 0 -> fst r = Ret tt)
  /\ (fst called <> 0 -> fst r = Exit 1)
  /\ fs (snd r) = fs (snd called)
  /\ stdin (snd r) = stdin (snd called)
  /\ cwd (snd r) = cwd w.
Proof.
  intros r called. subst r.
  destruct (run_command_spec m cmd desc w) as (st & w' & Hsh & ->).
  fold called in Hsh. rewrite Hsh. cbn zeta. cbn [fst snd].
  destruct (Z.eqb_spec st 0) as [->|Hst]; cbn [fst snd fs stdin cwd log].
  - split; [|repeat split; intros; congruence].
    apply shell_log_new_events
      with (evs := [EvPrint (info_msg desc); EvShell cmd 0; EvPrint (success_msg desc)]).
    cbn [trace log]. now rewrite <- app_assoc.
  - split; [|repeat split; intros; congruence].
    apply shell_log_new_events
      with (evs := [EvPrint (info_msg desc); EvShell cmd st;
                    EvPrint (error_msg desc cmd st)]).
    cbn [trace log]. now rewrite <- app_assoc.
Qed.

End Outcome.

End RunCommand.

(** ** get_script_directory *)

Module ScriptDirectory.
Import PyStr Sys Alpha Spec PyStrFacts SysFacts TextFacts StepFacts.
Local Open Scope list_scope.

Section Directory.
Context {X : Type} (m : machine X).
Implicit Types (w : world X).

(** X2: when the absolute path of the script is [dir/name], with [name]
    free of slashes and [dir] not empty and not ending in a slash, the
    script directory is [dir] and the working directory of the installer
    is [dir/Geant4]. *)
Theorem get_script_directory_of_file (dir name : string) :
  script_file m = dir +:+ "/" +:+ name ->
  char_free "/" name = true ->
  dir <> ""%string -> ends_with_slash dir = false ->
  get_script_directory m = dir
  /\ path_join (get_script_directory m) "Geant4" = dir +:+ "/Geant4".
Proof.
  intros Hfile Hname Hne Hend.
  assert (Hd : get_script_directory m = dir).
  { unfold get_script_directory, dirname. rewrite Hfile.
    change (dir +:+ "/" +:+ name) with (dir +:+ String "/" name).
    rewrite (upto_last_slash_app _ _ Hname).
    pose proof (rstrip_slash_dir dir Hne Hend) as Hr.
    destruct (lstrip_by (Ascii.eqb "/") (dir +:+ "/")) eqn:El; [|exact Hr].
    apply lstrip_empty_rstrip in El. congruence. }
  split; [exact Hd|]. rewrite Hd. unfold path_join.
  change (startswith "/" "Geant4") with false. cbv iota. rewrite Hend.
  destruct (String.eqb_spec dir ""); [contradiction|reflexivity].
Qed.

End Directory.

(** The script at /home/u/Gent/Alpha.py. *)
Lemma get_script_directory_of_file_witness :
  get_script_directory (Hosts.ubuntu "") = "/home/u/Gent"%string
  /\ path_join (get_script_directory (Hosts.ubuntu "")) "Geant4"
     = "/home/u/Gent/Geant4"%string.
Proof.
  apply (get_script_directory_of_file (Hosts.ubuntu "") "/home/u/Gent" "Alpha.py").
  - reflexivity.
  - reflexivity.
  - discriminate.
  - reflexivity.
Defined.

End ScriptDirectory.

(** ** get_cpu_cores *)

Module CpuCores.
Import PyStr Sys Alpha Spec PyStrFacts SysFacts TextFacts StepFacts.
Local Open Scope list_scope.

Section Cases.
Context {X : Type}.
Implicit Types (w : world X).



End Cases.

End CpuCores.

(** ** get_linux_distro *)

Module LinuxDistro.
Import PyStr Sys Alpha Spec PyStrFacts SysFacts TextFacts StepFacts.
Local Open Scope list_scope.

(** X4: reading [/etc/os-release].  When the first line that starts with
    PRETTY_NAME is [PRETTY_NAME=] followed by a value between double
    quotes, and the value holds no double quote: a value without an equals
    sign is returned as it is, and a value with one is cut at its first
    equals sign (only the field after the first [=] of the line is
    looked at). *)
Theorem scan_os_release_pretty_name (before after : list string)
    (value : string) :
  Forall (fun line => startswith "PRETTY_NAME" line = false) before ->
  char_free dquote value = true ->
  (char_free "=" value = true ->
   scan_os_release (before ++ pretty_name_line value :: after) = Some value)
  /\ (forall head tail,
        value = head +:+ String "=" tail -> char_free "=" head = true ->
        scan_os_release (before ++ pretty_name_line value :: after) = Some head).
Proof.
  intros Hbefore Hq.
  assert (Hscan : scan_os_release (before ++ pretty_name_line value :: after)
                  = match split "=" (dq +:+ value +:+ dq) with
                    | v :: _ => Some (strip_quotes v)
                    | [] => Some "Unknown"%string
                    end).
  { induction Hbefore as [|l before Hl _ IH]; cbn [app scan_os_release].
    - change (startswith "PRETTY_NAME" (pretty_name_line value)) with true.
      cbv iota. rewrite strip_pretty_name_line.
      change ("PRETTY_NAME=" +:+ dq +:+ value +:+ dq)
        with ("PRETTY_NAME" +:+ String "=" (dq +:+ value +:+ dq)).
      rewrite split_free_app by reflexivity.
      destruct (split "=" (dq +:+ value +:+ dq)); reflexivity.
    - now rewrite Hl. }
  rewrite Hscan. split.
  - intros He.
    assert (Hfree : char_free "=" (dq +:+ value +:+ dq) = true).
    { now rewrite !char_free_app, He. }
    rewrite (split_free _ _ Hfree). f_equal.
    now apply strip_quotes_quoted.
  - intros head tail -> Hhead.
    assert (Hq' : char_free dquote head = true).
    { rewrite char_free_app in Hq. now apply andb_prop in Hq as [-> _]. }
    replace (dq +:+ (head +:+ String "=" tail) +:+ dq)
      with (String dquote head +:+ String "=" (tail +:+ dq)).
    2: { change (dq +:+ (head +:+ String "=" tail) +:+ dq)
           with (String dquote ((head +:+ String "=" tail) +:+ dq)).
         now rewrite append_assoc. }
    rewrite split_free_app.
    2: { cbn [char_free]. now rewrite Hhead. }
    f_equal. unfold strip_quotes, strip_by. cbn [lstrip_by].
    rewrite Ascii.eqb_refl.
    now rewrite (lstrip_by_free _ _ Hq'), (rstrip_by_free _ _ Hq').
Qed.

(** The release file of an Ubuntu host, and a name with an equals sign. *)
Lemma scan_os_release_pretty_name_witness :
  scan_os_release
    ["NAME=Ubuntu" +:+ nl; pretty_name_line "Ubuntu 22.04.3 LTS";
     "ID=ubuntu" +:+ nl] = Some "Ubuntu 22.04.3 LTS"%string
  /\ scan_os_release [pretty_name_line "Foo OS (edition=lite)"]
     = Some "Foo OS (edition"%string.
Proof.
  split.
  - destruct (scan_os_release_pretty_name ["NAME=Ubuntu" +:+ nl]
                ["ID=ubuntu" +:+ nl] "Ubuntu 22.04.3 LTS") as [H _].
    + repeat constructor.
    + reflexivity.
    + apply H. reflexivity.
  - destruct (scan_os_release_pretty_name [] [] "Foo OS (edition=lite)")
      as [_ H].
    + constructor.
    + reflexivity.
    + apply (H "Foo OS (edition"%string "lite)"%string); reflexivity.
Defined.

End LinuxDistro.

(** ** detect_os *)

Module DetectOs.
Import PyStr Sys Alpha Spec PyStrFacts SysFacts TextFacts StepFacts.
Local Open Scope list_scope.

Section Reads.
Context {X : Type} (m : machine X).
Implicit Types (w : world X).

(** X5: [detect_os] always returns, with the OS type of the
    classification; it leaves the file system, the working directory and
    the console input as they were, and does nothing but print and, on
    Linux, query [lsb_release].  Off Linux the distro is N/A and nothing
    is queried; on Linux a query that returns 0 gives its output without
    surrounding blanks and double quotes; a query that fails, with a
    release file that cannot be read, gives Unknown. *)
Theorem detect_os_only_reads w :
  exists d evs,
    detect_os m w
    = (Ret (classify m, d),
       World (fs w) (cwd w) (stdin w) (trace w ++ evs) (ext w))
    /\ Forall is_probe evs
    /\ ((platform_system m =? "Linux")%string = false ->
        d = Some "N/A"%string /\ Forall is_print evs)
    /\ (forall out,
          (platform_system m =? "Linux")%string = true ->
          lsb_release m w = Completed 0 out ->
          d = Some (strip_quotes (strip out)))
    /\ ((platform_system m =? "Linux")%string = true ->
        (forall out, lsb_release m w <> Completed 0 out) ->
        read_lines "/etc/os-release" w = None ->
        d = Some "Unknown"%string).
Proof.
  unfold detect_os, bind at 1.
  destruct (platform_system m =? "Linux")%string eqn:Hsys.
  - unfold get_linux_distro.
    assert (Hr : read_lines "/etc/os-release"
                   (log (EvLsbRelease (lsb_release m w)) w)
                 = read_lines "/etc/os-release" w) by reflexivity.
    rewrite Hr.
    set (d := match lsb_release m w with
              | Completed 0 out => Some (strip_quotes (strip out))
              | _ => match read_lines "/etc/os-release" w with
                     | Some lines => scan_os_release lines
                     | None => Some "Unknown"%string
                     end
              end).
    assert (E : (match lsb_release m w with
                 | Completed 0 out =>
                     (Ret (Some (strip_quotes (strip out))),
                      log (EvLsbRelease (lsb_release m w)) w)
                 | _ =>
                     match read_lines "/etc/os-release" w with
                     | Some lines =>
                         (Ret (scan_os_release lines),
                          log (EvLsbRelease (lsb_release m w)) w)
                     | None =>
                         (Ret (Some "Unknown"%string),
                          log (EvLsbRelease (lsb_release m w)) w)
                     end
                 end) = (Ret d, log (EvLsbRelease (lsb_release m w)) w)).
    { unfold d. destruct (lsb_release m w) as [[|?|?] ?|];
        try destruct (read_lines _ w); reflexivity. }
    rewrite E. unfold bind, print, ret, log. cbn [fs cwd stdin trace ext].
    eexists d, [_; _; _; _; _]. split; [now rewrite <- !app_assoc|].
    split; [repeat constructor|]. split; [discriminate|]. split.
    + intros out _ Hout. unfold d. now rewrite Hout.
    + intros _ Hfail Hnone. unfold d. rewrite Hnone.
      destruct (lsb_release m w) as [[|?|?] ?|]; try reflexivity.
      now destruct (Hfail stdout).
  - unfold bind, print, ret, log. cbn [fs cwd stdin trace ext].
    eexists (Some "N/A"%string), [_; _; _; _]. split; [now rewrite <- !app_assoc|].
    split; [repeat constructor|]. split; [|split; discriminate].
    intros _. split; [reflexivity|repeat constructor].
Qed.

End Reads.

End DetectOs.

(** ** get_latest_geant4_version *)

Module LatestVersion.
Import PyStr Sys Alpha Spec PyStrFacts SysFacts TextFacts StepFacts.
Local Open Scope list_scope.


Section Choice.
Context {X : Type} (m : machine X).
Implicit Types (w : world X).


(** X8: a version the function returns was captured from the page it
    fetched, is among the first five of the sorted list, that is among the
    entries of the menu, and is a version text; the file system and the
    working directory are as before. *)
Theorem returned_version_was_found w v w' :
  get_latest_geant4_version m w = (Ret v, w') ->
  exists text versions,
    http_get m tags_url w = Some text
    /\ sorted_versions (set_order m (findall text)) = Some versions
    /\ v ∈ take 5 versions
    /\ v ∈ findall text
    /\ version_text v
    /\ fs w' = fs w /\ cwd w' = cwd w.
Proof.
  intros H.
  destruct (http_get m tags_url w) as [text|] eqn:Hget.
  2: { unfold get_latest_geant4_version in H.
       rewrite bind_get_text, Hget in H. discriminate. }
  destruct (sorted_versions_spec m text) as (vs & Hvs & Hp & _).
  exists text, vs. split; [reflexivity|]. split; [assumption|].
  destruct vs as [|v0 vs].
  { unfold get_latest_geant4_version in H.
    rewrite bind_get_text, Hget, Hvs in H. discriminate. }
  destruct (get_latest_menu m w text v0 vs Hget Hvs) as (evs & _ & E).
  rewrite E in H. unfold while_input in H.
  apply choice_loop_returns in H as (Hv & Hfs & Hcwd & _).
  assert (Hfound : v ∈ findall text).
  { apply (set_order_enum m). rewrite <- Hp.
    eapply elem_of_sublist; [exact Hv|apply sublist_take]. }
  repeat split; try assumption.
  now apply (findall_version text).
Qed.

End Choice.


(** The same page and the answer 1. *)
Lemma returned_version_was_found_witness :
  exists text versions,
    http_get (Hosts.ubuntu "tags: v1.0 v1.1 v1.0") tags_url
      (Hosts.ubuntu_world ["1"%string]) = Some text
    /\ sorted_versions
         (set_order (Hosts.ubuntu "tags: v1.0 v1.1 v1.0") (findall text))
       = Some versions
    /\ "1.1"%string ∈ take 5 versions
    /\ "1.1"%string ∈ findall text
    /\ version_text "1.1"
    /\ fs (snd (get_latest_geant4_version (Hosts.ubuntu "tags: v1.0 v1.1 v1.0")
                  (Hosts.ubuntu_world ["1"%string]))) = Hosts.ubuntu_fs
    /\ cwd (snd (get_latest_geant4_version (Hosts.ubuntu "tags: v1.0 v1.1 v1.0")
                   (Hosts.ubuntu_world ["1"%string]))) = "/home/u/Gent"%string.
Proof.
  apply (returned_version_was_found (Hosts.ubuntu "tags: v1.0 v1.1 v1.0")
           (Hosts.ubuntu_world ["1"%string]) "1.1"
           (snd (get_latest_geant4_version (Hosts.ubuntu "tags: v1.0 v1.1 v1.0")
                   (Hosts.ubuntu_world ["1"%string])))).
  vm_compute. reflexivity.
Defined.

End LatestVersion.

(** ** install_packages *)

Module InstallPackages.
Import PyStr Sys Alpha Spec PyStrFacts SysFacts TextFacts StepFacts.
Local Open Scope list_scope.

Section FirstMatch.
Context {X : Type} (m : machine X).
Implicit Types (w : world X).

(** X9: whatever the distro string holds, the command chosen is the one
    of the first name, in the order arch, ubuntu, debian, mint, opensuse,
    rocky, rhel, fedora, that occurs in the lower-cased string, and none
    when no name occurs.  A string that mentions several names gets the
    command of the earliest one: one with arch in it always gets the
    pacman command. *)
Theorem select_pkg_cmd_first_match (distro : string) :
  select_pkg_cmd m distro =
    match find (mentions distro) known_names with
    | Some name => template_for name (platform_release m)
    | None => None
    end
  /\ (mentions distro "arch" = true -> select_pkg_cmd m distro = Some pacman_cmd).
Proof.
  unfold select_pkg_cmd, mentions, known_names. cbn [find existsb].
  split.
  - destruct (contains "arch" (lower distro));
    destruct (contains "ubuntu" (lower distro));
    destruct (contains "debian" (lower distro));
    destruct (contains "mint" (lower distro));
    destruct (contains "opensuse" (lower distro));
    destruct (contains "rocky" (lower distro));
    destruct (contains "rhel" (lower distro));
    destruct (contains "fedora" (lower distro));
    try reflexivity;
    cbn; destruct (startswith "41" (platform_release m)); reflexivity.
  - now intros ->.
Qed.

End FirstMatch.

End InstallPackages.

(** ** install_geant4 *)

Module InstallGeant4.
Import PyStr Sys Alpha Spec PyStrFacts SysFacts TextFacts StepFacts.
Local Open Scope list_scope.
Import HaltingFacts.

Section Stages.
Context {X : Type} (m : machine X).
Implicit Types (w : world X).

(** X10: on a host classified as Windows the run ends with exit
    status 1 after the detection and the warning: the file system, the
    working directory and the console input are untouched, and nothing
    happened but console output and the query of the detector. *)
Theorem windows_run_touches_nothing w :
  classify m = Windows ->
  exists evs,
    install_geant4 m w
    = (Exit 1, World (fs w) (cwd w) (stdin w) (trace w ++ evs) (ext w))
    /\ Forall is_probe evs.
Proof.
  intros Hwin. unfold install_geant4, bind at 1.
  destruct (detect_os_frame m w) as (d & evs & -> & Hevs).
  rewrite Hwin. unfold bind, print, exit, log. cbn [fs cwd stdin trace ext].
  eexists (evs ++ [_]). split; [now rewrite <- app_assoc|].
  apply Forall_app. split; [assumption|repeat constructor].
Qed.


(** X12: whenever the preparation of the build directory returns, the
    build directory is a directory of the file system it leaves and the
    working directory is unchanged, so that the [os.chdir] that follows
    does not fail. *)
Theorem chdir_after_prepare_succeeds build_dir w :
  fst (prepare_build_dir m build_dir w) = Ret tt ->
  (exists entries,
     fs (snd (prepare_build_dir m build_dir w)) !! resolve w build_dir
     = Some (Dir entries))
  /\ cwd (snd (prepare_build_dir m build_dir w)) = cwd w
  /\ fst (bind (prepare_build_dir m build_dir) (fun _ => chdir build_dir) w)
     = Ret tt.
Proof.
  intros Hret.
  cut (exists wf entries,
         prepare_build_dir m build_dir w = (Ret tt, wf)
         /\ fs wf !! resolve w build_dir = Some (Dir entries) /\ cwd wf = cwd w).
  { intros (wf & entries & E & Hfs & Hcwd). unfold bind. rewrite E. cbn [fst snd].
    split; [eauto|]. split; [assumption|].
    unfold chdir. replace (resolve wf build_dir) with (resolve w build_dir)
      by (unfold resolve; now rewrite Hcwd).
    now rewrite Hfs. }
  pose proof (prepare_build_dir_other m build_dir w) as Hother.
  destruct (fs w !! resolve w build_dir) as [[?|[|entry entries]]|] eqn:Hl.
  - rewrite Hother in Hret. discriminate.
  - exists w, []. auto.
  - destruct (stdin w) as [|answer rest] eqn:Hin.
    { rewrite (Hother eq_refl) in Hret. discriminate. }
    clear Hother.
    rewrite (prepare_build_dir_asked m _ _ _ _ _ _ Hl Hin) in Hret |- *.
    cbn zeta in *.
    destruct (normalized answer =? "c")%string.
    + destruct (run_command_cases m ("rm -rf " +:+ build_dir)
                  "Clearing build directory"
                  (build_asked build_dir answer rest w))
        as (st & w1 & evs & _ & _ & C1 & [[-> E]|[Hst E]]);
        unfold bind in *; rewrite E in *; [|discriminate].
      unfold makedirs in *.
      replace (resolve w1 build_dir) with (resolve w build_dir) in *
        by (unfold resolve; now rewrite C1).
      destruct (fs w1 !! resolve w build_dir) as [[|]|]; try discriminate.
      eexists _, []. split; [reflexivity|]. cbn [fs cwd set_fs].
      split; [apply lookup_insert_eq|exact C1].
    + destruct (normalized answer =? "s")%string; [|discriminate].
      eexists _, (entry :: entries). split; [reflexivity|]. auto.
  - rewrite Hother. eexists _, []. split; [reflexivity|]. cbn [fs cwd set_fs].
    split; [apply lookup_insert_eq|reflexivity].
Qed.

(** X17: the build directory, case by case.  A path that is absent is
    created empty; a path that is a file ends in [NotADirectoryError] with
    nothing changed; an empty directory is taken as it is, without a
    prompt.  For a directory that holds something: at the end of input
    [EOFError] leaves; the answer s returns, and any answer other than c
    and s exits with status 0, both with the file system as it was and no
    command run; the answer c runs rm -rf once, exits with status 1 when
    it fails and otherwise returns or, the path still being there, ends in
    [FileExistsError]. *)
Theorem prepare_build_dir_cases build_dir w :
  let r := prepare_build_dir m build_dir w in
  let p := resolve w build_dir in
  let ran := shell_log (new_events w (snd r)) in
  (fs w !! p = None ->
   r = (Ret tt, set_fs (<[p := Dir []]> (fs w)) w))
  /\ (forall writable content, fs w !! p = Some (File writable content) ->
      r = (Raise NotADirectoryError, w))
  /\ (fs w !! p = Some (Dir []) -> r = (Ret tt, w))
  /\ (forall entry entries, fs w !! p = Some (Dir (entry :: entries)) ->
      (stdin w = [] ->
       fst r = Raise EOFError /\ fs (snd r) = fs w /\ ran = [])
      /\ (forall answer rest, stdin w = answer :: rest ->
          (normalized answer = "s"%string ->
           fst r = Ret tt /\ fs (snd r) = fs w /\ stdin (snd r) = rest
           /\ ran = [])
          /\ (normalized answer <> "c"%string ->
              normalized answer <> "s"%string ->
              fst r = Exit 0 /\ fs (snd r) = fs w /\ ran = [])
          /\ (normalized answer = "c"%string ->
              exists st,
                ran = [("rm -rf " +:+ build_dir, st)]
                /\ (st <> 0 -> fst r = Exit 1)
                /\ (st = 0 ->
                    fst r = Ret tt \/ fst r = Raise FileExistsError)))).
Proof.
  intros r p ran. subst r p ran.
  pose proof (prepare_build_dir_other m build_dir w) as Hother.
  split; [intros H; now rewrite H in Hother|].
  split; [intros wr c H; now rewrite H in Hother|].
  split; [intros H; now rewrite H in Hother|].
  intros entry entries Hdir. rewrite Hdir in Hother. split.
  - intros Hin. rewrite (Hother Hin). cbn [fst snd fs log].
    repeat split.
    apply shell_log_new_events
      with (evs := [EvPrint ("[WARNING] Build dir '" +:+ build_dir +:+ "' not empty.");
                    EvInput build_prompt None]).
    cbn [trace log]. now rewrite <- app_assoc.
  - intros answer rest Hin. clear Hother.
    rewrite (prepare_build_dir_asked m _ _ _ _ _ _ Hdir Hin). cbn zeta.
    assert (Tasked : trace (build_asked build_dir answer rest w)
              = trace w ++ [EvPrint ("[WARNING] Build dir '" +:+ build_dir +:+ "' not empty.");
                            EvInput build_prompt (Some answer)]).
    { unfold build_asked. cbn [trace log take_line]. now rewrite <- app_assoc. }
    split; [|split].
    + intros Hs. rewrite Hs.
      change ("s" =? "c")%string with false. change ("s" =? "s")%string with true.
      cbv iota. cbn [fst snd fs stdin log]. unfold build_asked.
      cbn [fs stdin log take_line]. repeat split.
      apply shell_log_new_events
        with (evs := [EvPrint ("[WARNING] Build dir '" +:+ build_dir +:+ "' not empty.");
                      EvInput build_prompt (Some answer);
                      EvPrint "[INFO] Continuing with existing build dir."]).
      cbn [trace log take_line]. now rewrite <- !app_assoc.
    + intros Hc Hs.
      destruct (String.eqb_spec (normalized answer) "c"); [contradiction|].
      destruct (String.eqb_spec (normalized answer) "s"); [contradiction|].
      cbn [fst snd fs log]. unfold build_asked. cbn [fs log take_line].
      repeat split.
      apply shell_log_new_events
        with (evs := [EvPrint ("[WARNING] Build dir '" +:+ build_dir +:+ "' not empty.");
                      EvInput build_prompt (Some answer);
                      EvPrint "[INFO] Aborting."]).
      cbn [trace log take_line]. now rewrite <- !app_assoc.
    + intros Hc. rewrite Hc. change ("c" =? "c")%string with true. cbv iota.
      destruct (run_command_cases m ("rm -rf " +:+ build_dir)
                  "Clearing build directory"
                  (build_asked build_dir answer rest w))
        as (st & w1 & evs & T & L & C1 & [[-> E]|[Hst E]]);
        unfold bind; rewrite E.
      * exists 0. split; [|split; [congruence|]].
        -- assert (Tm : trace (snd (makedirs build_dir false w1)) = trace w1).
           { unfold makedirs. destruct (fs w1 !! resolve w1 build_dir) as [[]|];
               reflexivity. }
           rewrite T, Tasked, <- app_assoc in Tm.
           rewrite (shell_log_new_events _ _ _ Tm), shell_log_app. exact L.
        -- intros _. unfold makedirs.
           destruct (fs w1 !! resolve w1 build_dir) as [[]|]; auto.
      * exists st. split; [|split; [reflexivity|contradiction]].
        cbn [snd]. rewrite Tasked, <- app_assoc in T.
        rewrite (shell_log_new_events _ _ _ T), shell_log_app. exact L.
Qed.


(** X14: in every run, once an event settles the exit status (a command
    run through [run_command] with a nonzero status, a tags page without a
    version, an answer at a three-way prompt that is neither of the two
    that continue), the run ends with that status, after it the script
    only prints (it runs no command and reads no input), and no earlier
    event settled a status. *)
Theorem run_stops_at_fatal_event w pre e post c :
  new_events w (snd (install_geant4 m w)) = pre ++ e :: post ->
  verdict e = Some c ->
  fst (install_geant4 m w) = Exit c
  /\ Forall is_print post
  /\ commands post = []
  /\ Forall (fun e' => verdict e' = None) pre.
Proof.
  intros Hev Hv. destruct (hsat_install_geant4 m w) as (evs & T & H).
  rewrite (new_events_app _ _ _ T) in Hev. subst evs.
  destruct (H pre e post c eq_refl Hv) as [Ho Hp].
  split; [assumption|]. split; [assumption|]. split.
  - clear -Hp. induction Hp as [|x l He Hl IH]; [reflexivity|].
    destruct x; try destruct He. exact IH.
  - apply Forall_forall. intros e' He'.
    apply list_elem_of_split in He' as (p1 & p2 & ->).
    destruct (verdict e') as [c'|] eqn:E; [|reflexivity].
    rewrite <- app_assoc in H. cbn [app] in H.
    destruct (H p1 e' (p2 ++ e :: post) c' eq_refl E) as [_ Hpr].
    apply Forall_app in Hpr as [_ Hpr]. apply Forall_cons in Hpr as [He _].
    destruct e; try destruct He. discriminate.
Qed.


End Stages.

(** A Windows host. *)
Lemma windows_run_touches_nothing_witness :
  exists evs,
    install_geant4 Hosts.windows (Hosts.ubuntu_world ["1"%string])
    = (Exit 1,
       World Hosts.ubuntu_fs "/home/u/Gent" ["1"%string] ([] ++ evs) tt)
    /\ Forall is_probe evs.
Proof.
  apply (windows_run_touches_nothing Hosts.windows
           (Hosts.ubuntu_world ["1"%string])).
  reflexivity.
Defined.

(** A build directory that holds a file, and the answer s. *)
Lemma chdir_after_prepare_succeeds_witness :
  (exists entries,
     fs (snd (prepare_build_dir (Hosts.ubuntu "v11.2.2") "geant4-v11.2.2-build"
                (Hosts.geant4_world ["s"%string])))
       !! "/home/u/Gent/Geant4/geant4-v11.2.2-build"%string
     = Some (Dir entries))
  /\ cwd (snd (prepare_build_dir (Hosts.ubuntu "v11.2.2") "geant4-v11.2.2-build"
                 (Hosts.geant4_world ["s"%string])))
     = "/home/u/Gent/Geant4"%string
  /\ fst (bind (prepare_build_dir (Hosts.ubuntu "v11.2.2") "geant4-v11.2.2-build")
            (fun _ => chdir "geant4-v11.2.2-build")
            (Hosts.geant4_world ["s"%string])) = Ret tt.
Proof.
  apply (chdir_after_prepare_succeeds (Hosts.ubuntu "v11.2.2")
           "geant4-v11.2.2-build" (Hosts.geant4_world ["s"%string])).
  vm_compute. reflexivity.
Defined.

(** The tarball is there and the answer at its prompt is a. *)
Lemma run_stops_at_fatal_event_witness :
  fst (install_geant4 (Hosts.ubuntu "v11.2.2")
         (Hosts.geant4_world ["1"; "a"; "8"]%string)) = Exit 0
  /\ Forall is_print [EvPrint "[INFO] Aborting."]
  /\ commands [EvPrint "[INFO] Aborting."] = []
  /\ Forall (fun e' => verdict e' = None)
       (take 10
          (new_events (Hosts.geant4_world ["1"; "a"; "8"]%string)
             (snd (install_geant4 (Hosts.ubuntu "v11.2.2")
                     (Hosts.geant4_world ["1"; "a"; "8"]%string))))).
Proof.
  apply (run_stops_at_fatal_event (Hosts.ubuntu "v11.2.2")
           (Hosts.geant4_world ["1"; "a"; "8"]%string)
           (take 10
              (new_events (Hosts.geant4_world ["1"; "a"; "8"]%string)
                 (snd (install_geant4 (Hosts.ubuntu "v11.2.2")
                         (Hosts.geant4_world ["1"; "a"; "8"]%string)))))
           (EvInput tarball_prompt (Some "a"%string))
           [EvPrint "[INFO] Aborting."] 0).
  - vm_compute. reflexivity.
  - reflexivity.
Defined.


End InstallGeant4.
